(** * Unipack Emails: the template-rendering contract

    A shallow embedding of the three email templates
    ([emails/welcome.tsx], [emails/newsletter.tsx],
    [emails/password-reset.tsx]) and of the two HTTP front ends
    ([server/index.ts] for Bun, [server/node-server.ts] for Node), followed
    by the properties of the rendering contract.

    JavaScript values are an inductive type, a thrown exception is the
    [Throw] outcome of a small error monad, a JSX expression is a tree of
    [node]s whose leaves are the literal texts and the interpolated
    values of the source. *)

From Stdlib Require Import String Ascii List ZArith Bool Lia DecimalString.
From Stdlib Require Import Permutation.
Import ListNotations.
Open Scope list_scope.
Open Scope string_scope.

#[local] Set Warnings "-register-all".

(* ================================================================= *)
(** ** JavaScript values and the operators the program applies to them *)

Module Js.

(** JSON values, plus [undefined].  Numbers are restricted to the
    integers; an object is the association list of its own fields, read
    with [lookup] (first binding of a key). *)
Inductive value : Type :=
| VUndefined
| VNull
| VBool (b : bool)
| VNum (n : Z)
| VStr (s : string)
| VArr (items : list value)
| VObj (fields : list (string * value)).

Inductive error : Type :=
| TypeError (what : string)
| Error (message : string).

Definition message (e : error) : string :=
  match e with
  | TypeError what => what
  | Error m => m
  end.

(** The result of evaluating an expression that may throw. *)
Inductive outcome (A : Type) : Type :=
| Ok (a : A)
| Throw (e : error).

Arguments Ok {A} a.
Arguments Throw {A} e.

Definition bind {A B : Type} (m : outcome A) (k : A -> outcome B) : outcome B :=
  match m with
  | Ok a => k a
  | Throw e => Throw e
  end.

Fixpoint lookup (k : string) (fields : list (string * value)) : option value :=
  match fields with
  | [] => None
  | (k', v) :: rest => if String.eqb k k' then Some v else lookup k rest
  end.

(** Property read [v.k], for the keys this program reads ([data],
    [format], the template parameters and the article fields): none of
    them is a member of a built-in prototype, so on a primitive or an
    array the read gives [undefined]; on [null] and [undefined] it
    throws. *)
Definition get (v : value) (k : string) : outcome value :=
  match v with
  | VUndefined | VNull =>
      Throw (TypeError ("Cannot read properties of null or undefined: " ++ k))
  | VObj fields =>
      Ok (match lookup k fields with Some x => x | None => VUndefined end)
  | _ => Ok VUndefined
  end.

(** Truthiness: [undefined], [null], [false], [0] and the empty string
    are falsy. *)
Definition truthy (v : value) : bool :=
  match v with
  | VUndefined | VNull => false
  | VBool b => b
  | VNum n => negb (Z.eqb n 0)
  | VStr s => negb (String.eqb s "")
  | VArr _ | VObj _ => true
  end.

(** [a || b] *)
Definition or_else (a b : value) : value := if truthy a then a else b.

(** [v === 'lit'] *)
Definition is_str (v : value) (lit : string) : bool :=
  match v with
  | VStr s => String.eqb s lit
  | _ => false
  end.

(** A destructuring default [{ k = dflt }]: the default is taken when,
    and only when, the property reads as [undefined]. *)
Definition default_to (dflt v : value) : value :=
  match v with
  | VUndefined => dflt
  | _ => v
  end.

Definition param (props : value) (k : string) (dflt : value) : outcome value :=
  bind (get props k) (fun v => Ok (default_to dflt v)).

(** [String.prototype.toLowerCase], on the ASCII letters. *)
Definition lower_ascii (c : ascii) : ascii :=
  let n := nat_of_ascii c in
  if andb (Nat.leb 65 n) (Nat.leb n 90) then ascii_of_nat (n + 32) else c.

Fixpoint lower (s : string) : string :=
  match s with
  | EmptyString => EmptyString
  | String c s' => String (lower_ascii c) (lower s')
  end.

(** [v.toLowerCase()]: only a string has the method.  Reading the
    method off [null] or [undefined] already throws; on any other
    value the call does.  The messages are worded as V8 words them
    (JavaScriptCore, which runs the Bun server, words them otherwise);
    the kind of the error is what the properties below rest on. *)
Definition toLowerCase (what : string) (v : value) : outcome value :=
  match v with
  | VStr s => Ok (VStr (lower s))
  | VNull =>
      Throw (TypeError "Cannot read properties of null (reading 'toLowerCase')")
  | VUndefined =>
      Throw (TypeError
               "Cannot read properties of undefined (reading 'toLowerCase')")
  | _ => Throw (TypeError (what ++ ".toLowerCase is not a function"))
  end.

(** [haystack.split(sep)] for a non-empty separator. *)
Fixpoint split_go (sep : string) (skip : nat) (cur : string) (s : string)
  : list string :=
  match s with
  | EmptyString => [cur]
  | String c s' =>
      match skip with
      | S k => split_go sep k cur s'
      | O =>
          if String.prefix sep s
          then cur :: split_go sep (String.length sep - 1) "" s'
          else split_go sep O (cur ++ String c "") s'
      end
  end.

Definition split (sep s : string) : list string := split_go sep 0 "" s.

(** [xs[i]] on an array of strings, [undefined] out of range. *)
Definition index (xs : list string) (i : nat) : value :=
  match nth_error xs i with
  | Some s => VStr s
  | None => VUndefined
  end.

Definition decimal (n : Z) : string := NilZero.string_of_int (Z.to_int n).

End Js.
Export Js.

Declare Scope js_scope.
Notation "x <- m ;; k" := (bind m (fun x => k))
  (at level 61, m at next level, right associativity) : js_scope.
Open Scope js_scope.

(* ================================================================= *)
(** ** The element tree a template returns *)

(** The components imported from [@react-email/components]. *)
Inductive component : Type :=
| CHtml | CHead | CPreview | CBody | CContainer | CSection
| CText | CButton | CHr | CLink.

Definition component_eq_dec (a b : component) : {a = b} + {a <> b}.
Proof. decide equality. Defined.

(** A style object: CSS property name and value, in source order. *)
Definition style : Type := list (string * string).

(** A JSX expression: literal text, an interpolated [{value}], or an
    element with its [style] and [href] props and its children. *)
Inductive node : Type :=
| Lit (s : string)
| Expr (v : value)
| Elem (c : component) (st : option style) (href : option value)
       (children : list node).

Definition dquote : string := String (ascii_of_nat 34) EmptyString.
Definition newline : string := String (ascii_of_nat 10) EmptyString.

Definition el (c : component) (st : style) (children : list node) : node :=
  Elem c (Some st) None children.

Definition anchor (c : component) (st : style) (href : value)
  (children : list node) : node :=
  Elem c (Some st) (Some href) children.

(** [cond && element]: the element when [cond] is truthy, otherwise the
    falsy value itself, left among the children. *)
Definition and_then (cond : value) (e : node) : node :=
  if truthy cond then e else Expr cond.

(** [array.map((x, index) => ...)] with a callback that may throw.
    Only an array has the method; the messages are worded as V8 words
    them, as for [toLowerCase]. *)
Fixpoint map_from {A : Type} (f : nat -> value -> outcome A) (i : nat)
  (xs : list value) : outcome (list A) :=
  match xs with
  | [] => Ok []
  | x :: rest =>
      y <- f i x ;;
      ys <- map_from f (S i) rest ;;
      Ok (y :: ys)
  end.

Definition array_map {A : Type} (what : string) (v : value)
  (f : nat -> value -> outcome A) : outcome (list A) :=
  match v with
  | VArr items => map_from f 0 items
  | VNull => Throw (TypeError "Cannot read properties of null (reading 'map')")
  | VUndefined =>
      Throw (TypeError "Cannot read properties of undefined (reading 'map')")
  | _ => Throw (TypeError (what ++ ".map is not a function"))
  end.

(** [array.length] of the array the callback closes over. *)
Definition array_length (v : value) : Z :=
  match v with
  | VArr items => Z.of_nat (List.length items)
  | _ => 0%Z
  end.

(* ================================================================= *)
(** ** emails/welcome.tsx *)

Module Welcome.

Definition main : style :=
  [ ("backgroundColor", "#f6f9fc");
    ("fontFamily", ("-apple-system,BlinkMacSystemFont," ++ dquote ++ "Segoe UI" ++ dquote ++ ",Roboto," ++ dquote ++ "Helvetica Neue" ++ dquote ++ ",Ubuntu,sans-serif")) ].

Definition container : style :=
  [ ("backgroundColor", "#ffffff");
    ("margin", "0 auto");
    ("padding", "20px 0 48px");
    ("marginBottom", "64px");
    ("maxWidth", "600px") ].

Definition header : style :=
  [ ("padding", "32px 24px");
    ("backgroundColor", "#007bff");
    ("textAlign", "center") ].

Definition logo : style :=
  [ ("fontSize", "28px");
    ("fontWeight", "bold");
    ("color", "#ffffff");
    ("margin", "0") ].

Definition content : style :=
  [ ("padding", "0 24px") ].

Definition heading : style :=
  [ ("fontSize", "24px");
    ("fontWeight", "bold");
    ("color", "#333333");
    ("margin", "40px 0 20px");
    ("textAlign", "center") ].

Definition text : style :=
  [ ("fontSize", "16px");
    ("lineHeight", "24px");
    ("color", "#555555");
    ("margin", "16px 0") ].

Definition buttonContainer : style :=
  [ ("textAlign", "center");
    ("margin", "32px 0") ].

Definition button : style :=
  [ ("backgroundColor", "#007bff");
    ("borderRadius", "6px");
    ("color", "#ffffff");
    ("fontSize", "16px");
    ("fontWeight", "bold");
    ("textDecoration", "none");
    ("textAlign", "center");
    ("display", "inline-block");
    ("padding", "14px 28px");
    ("border", "none") ].

Definition hr : style :=
  [ ("borderColor", "#e6ebf1");
    ("margin", "32px 0") ].

Definition footer : style :=
  [ ("padding", "24px");
    ("backgroundColor", "#f8f9fa");
    ("textAlign", "center") ].

Definition footerText : style :=
  [ ("fontSize", "12px");
    ("color", "#8898aa");
    ("margin", "4px 0") ].

(** The JSX returned by [WelcomeEmail], as a function of the three
    destructured parameters. *)
Definition view (username loginUrl companyName : value) : node :=
  Elem CHtml None None
    [ Elem CHead None None [];
      Elem CPreview None None
        [ Lit "Welcome to "; Expr companyName;
          Lit " - Get started with your new account" ];
      el CBody main
        [ el CContainer container
            [ el CSection header
                [ el CText logo [ Expr companyName ] ];
              el CSection content
                [ el CText heading [ Lit "Welcome, "; Expr username; Lit "!" ];
                  el CText text
                    [ Lit "We're thrilled to have you join the ";
                      Expr companyName;
                      Lit " community. Your account has been successfully created, and you're ready to get started." ];
                  el CText text
                    [ Lit "Click the button below to access your dashboard and begin exploring all the features we have to offer:" ];
                  el CSection buttonContainer
                    [ anchor CButton button loginUrl [ Lit "Get Started" ] ];
                  el CHr hr [];
                  el CText text
                    [ Lit "If you have any questions or need assistance, our support team is here to help. Feel free to reply to this email or contact us through our help center." ] ];
              el CSection footer
                [ el CText footerText
                    [ Lit "© 2024 "; Expr companyName;
                      Lit ". All rights reserved." ];
                  el CText footerText
                    [ Lit "This email was sent to you because you created an account with ";
                      Expr companyName; Lit "." ] ] ] ] ].

Definition WelcomeEmail (props : value) : outcome node :=
  username <- param props "username" (VStr "User") ;;
  loginUrl <- param props "loginUrl" (VStr "#") ;;
  companyName <- param props "companyName" (VStr "Unipack") ;;
  Ok (view username loginUrl companyName).

End Welcome.

(* ================================================================= *)
(** ** emails/password-reset.tsx *)

Module PasswordReset.

Definition main : style :=
  [ ("backgroundColor", "#f6f9fc");
    ("fontFamily", ("-apple-system,BlinkMacSystemFont," ++ dquote ++ "Segoe UI" ++ dquote ++ ",Roboto," ++ dquote ++ "Helvetica Neue" ++ dquote ++ ",Ubuntu,sans-serif")) ].

Definition container : style :=
  [ ("backgroundColor", "#ffffff");
    ("margin", "0 auto");
    ("padding", "20px 0 48px");
    ("marginBottom", "64px");
    ("maxWidth", "600px") ].

Definition header : style :=
  [ ("padding", "32px 24px");
    ("backgroundColor", "#dc3545");
    ("textAlign", "center") ].

Definition logo : style :=
  [ ("fontSize", "28px");
    ("fontWeight", "bold");
    ("color", "#ffffff");
    ("margin", "0") ].

Definition content : style :=
  [ ("padding", "0 24px") ].

Definition heading : style :=
  [ ("fontSize", "24px");
    ("fontWeight", "bold");
    ("color", "#333333");
    ("margin", "40px 0 20px");
    ("textAlign", "center") ].

Definition text : style :=
  [ ("fontSize", "16px");
    ("lineHeight", "24px");
    ("color", "#555555");
    ("margin", "16px 0") ].

Definition buttonContainer : style :=
  [ ("textAlign", "center");
    ("margin", "32px 0") ].

Definition button : style :=
  [ ("backgroundColor", "#dc3545");
    ("borderRadius", "6px");
    ("color", "#ffffff");
    ("fontSize", "16px");
    ("fontWeight", "bold");
    ("textDecoration", "none");
    ("textAlign", "center");
    ("display", "inline-block");
    ("padding", "14px 28px");
    ("border", "none") ].

Definition warningSection : style :=
  [ ("backgroundColor", "#fff3cd");
    ("border", "1px solid #ffeeba");
    ("borderRadius", "4px");
    ("padding", "16px");
    ("margin", "24px 0") ].

Definition warningTitle : style :=
  [ ("fontSize", "16px");
    ("fontWeight", "bold");
    ("color", "#856404");
    ("margin", "0 0 12px") ].

Definition warningText : style :=
  [ ("fontSize", "14px");
    ("lineHeight", "20px");
    ("color", "#856404");
    ("margin", "8px 0") ].

Definition urlText : style :=
  [ ("fontSize", "14px");
    ("color", "#007bff");
    ("wordBreak", "break-all");
    ("margin", "12px 0");
    ("padding", "12px");
    ("backgroundColor", "#f8f9fa");
    ("border", "1px solid #dee2e6");
    ("borderRadius", "4px") ].

Definition hr : style :=
  [ ("borderColor", "#e6ebf1");
    ("margin", "32px 0") ].

Definition footer : style :=
  [ ("padding", "24px");
    ("backgroundColor", "#f8f9fa");
    ("textAlign", "center") ].

Definition footerText : style :=
  [ ("fontSize", "12px");
    ("color", "#8898aa");
    ("margin", "4px 0") ].

Definition view (username resetUrl companyName expiryTime : value)
  : outcome node :=
  lowered <- toLowerCase "companyName" companyName ;;
  Ok (Elem CHtml None None
    [ Elem CHead None None [];
      Elem CPreview None None
        [ Lit "Reset your "; Expr companyName; Lit " password" ];
      el CBody main
        [ el CContainer container
            [ el CSection header
                [ el CText logo [ Expr companyName ] ];
              el CSection content
                [ el CText heading [ Lit "Password Reset Request" ];
                  el CText text [ Lit "Hi "; Expr username; Lit "," ];
                  el CText text
                    [ Lit "We received a request to reset the password for your ";
                      Expr companyName;
                      Lit " account. If you made this request, click the button below to create a new password:" ];
                  el CSection buttonContainer
                    [ anchor CButton button resetUrl [ Lit "Reset Password" ] ];
                  el CText text
                    [ Lit "This password reset link will expire in ";
                      Expr expiryTime;
                      Lit ". If you need to request another reset link, you can do so from our login page." ];
                  el CHr hr [];
                  el CSection warningSection
                    [ el CText warningTitle [ Lit "⚠️ Security Notice" ];
                      el CText warningText
                        [ Lit "If you didn't request this password reset, please ignore this email. Your password will remain unchanged, and your account is secure." ];
                      el CText warningText
                        [ Lit "For your security, never share this reset link with anyone. Our support team will never ask you for your password or login credentials." ] ];
                  el CHr hr [];
                  el CText text
                    [ Lit "If you're having trouble with the button above, copy and paste the following URL into your browser:" ];
                  el CText urlText [ Expr resetUrl ] ];
              el CSection footer
                [ el CText footerText
                    [ Lit "Need help? Contact our support team at support@";
                      Expr lowered; Lit ".com" ];
                  el CText footerText
                    [ Lit "© 2024 "; Expr companyName;
                      Lit ". All rights reserved." ] ] ] ] ]).

Definition PasswordResetEmail (props : value) : outcome node :=
  username <- param props "username" (VStr "User") ;;
  resetUrl <- param props "resetUrl" (VStr "#") ;;
  companyName <- param props "companyName" (VStr "Unipack") ;;
  expiryTime <- param props "expiryTime" (VStr "24 hours") ;;
  view username resetUrl companyName expiryTime.

End PasswordReset.

(* ================================================================= *)
(** ** emails/newsletter.tsx *)

Module Newsletter.

Definition main : style :=
  [ ("backgroundColor", "#f6f9fc");
    ("fontFamily", ("-apple-system,BlinkMacSystemFont," ++ dquote ++ "Segoe UI" ++ dquote ++ ",Roboto," ++ dquote ++ "Helvetica Neue" ++ dquote ++ ",Ubuntu,sans-serif")) ].

Definition container : style :=
  [ ("backgroundColor", "#ffffff");
    ("margin", "0 auto");
    ("padding", "20px 0 48px");
    ("marginBottom", "64px");
    ("maxWidth", "600px") ].

Definition header : style :=
  [ ("padding", "32px 24px");
    ("backgroundColor", "#007bff");
    ("textAlign", "center") ].

Definition logo : style :=
  [ ("fontSize", "28px");
    ("fontWeight", "bold");
    ("color", "#ffffff");
    ("margin", "0 0 8px 0") ].

Definition headerSubtitle : style :=
  [ ("fontSize", "16px");
    ("color", "#ffffff");
    ("margin", "0");
    ("opacity", "0.9") ].

Definition content : style :=
  [ ("padding", "0 24px") ].

Definition greeting : style :=
  [ ("fontSize", "18px");
    ("fontWeight", "600");
    ("color", "#333333");
    ("margin", "32px 0 16px") ].

Definition text : style :=
  [ ("fontSize", "16px");
    ("lineHeight", "24px");
    ("color", "#555555");
    ("margin", "16px 0") ].

Definition sectionHeading : style :=
  [ ("fontSize", "20px");
    ("fontWeight", "bold");
    ("color", "#333333");
    ("margin", "32px 0 20px");
    ("borderBottom", "2px solid #007bff");
    ("paddingBottom", "8px") ].

Definition articleSection : style :=
  [ ("margin", "24px 0") ].

Definition articleTitle : style :=
  [ ("fontSize", "18px");
    ("fontWeight", "bold");
    ("margin", "0 0 12px") ].

Definition articleLink : style :=
  [ ("color", "#007bff");
    ("textDecoration", "none") ].

Definition articleExcerpt : style :=
  [ ("fontSize", "14px");
    ("lineHeight", "20px");
    ("color", "#666666");
    ("margin", "0 0 8px") ].

Definition readTime : style :=
  [ ("fontSize", "12px");
    ("color", "#999999");
    ("margin", "0 0 16px") ].

Definition articleButtonContainer : style :=
  [ ("margin", "16px 0") ].

Definition articleButton : style :=
  [ ("backgroundColor", "transparent");
    ("border", "1px solid #007bff");
    ("borderRadius", "4px");
    ("color", "#007bff");
    ("fontSize", "14px");
    ("fontWeight", "500");
    ("textDecoration", "none");
    ("textAlign", "center");
    ("display", "inline-block");
    ("padding", "8px 16px") ].

Definition articleHr : style :=
  [ ("borderColor", "#e6ebf1");
    ("margin", "24px 0") ].

Definition ctaText : style :=
  [ ("fontSize", "16px");
    ("lineHeight", "24px");
    ("color", "#333333");
    ("textAlign", "center");
    ("margin", "24px 0 16px") ].

Definition socialSection : style :=
  [ ("textAlign", "center");
    ("margin", "20px 0") ].

Definition socialButton : style :=
  [ ("backgroundColor", "#007bff");
    ("borderRadius", "4px");
    ("color", "#ffffff");
    ("fontSize", "14px");
    ("fontWeight", "500");
    ("textDecoration", "none");
    ("textAlign", "center");
    ("display", "inline-block");
    ("padding", "8px 16px");
    ("margin", "0 8px");
    ("border", "none") ].

Definition hr : style :=
  [ ("borderColor", "#e6ebf1");
    ("margin", "32px 0") ].

Definition footer : style :=
  [ ("padding", "24px");
    ("backgroundColor", "#f8f9fa");
    ("textAlign", "center") ].

Definition footerText : style :=
  [ ("fontSize", "12px");
    ("color", "#8898aa");
    ("margin", "4px 0") ].

Definition unsubscribeLink : style :=
  [ ("color", "#8898aa");
    ("textDecoration", "underline") ].

(** The default value of the [articles] parameter. *)
Definition sample_articles : value :=
  VArr
    [ VObj
        [ ("title", VStr "Sample Article Title");
          ("excerpt", VStr "This is a sample article excerpt that gives readers a preview of the content...");
          ("url", VStr "#");
          ("readTime", VStr "5 min read") ] ].

(** The callback of [articles.map]: one article block. *)
Definition article_block (articles : value) (index : nat) (article : value)
  : outcome node :=
  url <- get article "url" ;;
  title <- get article "title" ;;
  excerpt <- get article "excerpt" ;;
  read <- get article "readTime" ;;
  Ok (el CSection articleSection
        [ el CText articleTitle
            [ anchor CLink articleLink url [ Expr title ] ];
          el CText articleExcerpt [ Expr excerpt ];
          and_then read (el CText readTime [ Expr read ]);
          el CSection articleButtonContainer
            [ anchor CButton articleButton url [ Lit "Read More" ] ];
          and_then
            (VBool (Z.ltb (Z.of_nat index) (array_length articles - 1)))
            (el CHr articleHr []) ]).

(** The array returned by [articles.map] is spliced among the children
    of the enclosing section, the way React flattens an array child. *)
Definition view (title articles companyName unsubscribeUrl : value)
  : outcome node :=
  blocks <- array_map "articles" articles (article_block articles) ;;
  Ok (Elem CHtml None None
    [ Elem CHead None None [];
      Elem CPreview None None
        [ Expr title; Lit " - Latest updates from "; Expr companyName ];
      el CBody main
        [ el CContainer container
            [ el CSection header
                [ el CText logo [ Expr companyName ];
                  el CText headerSubtitle [ Expr title ] ];
              el CSection content
                [ el CText greeting [ Lit "Hello there! ðŸ‘‹" ];
                  el CText text
                    [ Lit "Here's what's been happening at ";
                      Expr companyName;
                      Lit " this week. We've curated the most interesting updates, insights, and stories just for you." ] ];
              el CSection content
                (el CText sectionHeading [ Lit "Latest Articles" ] :: blocks);
              el CHr hr [];
              el CSection content
                [ el CText ctaText
                    [ Lit "Want to stay connected? Follow us on social media for daily updates and behind-the-scenes content." ];
                  el CSection socialSection
                    [ anchor CButton socialButton (VStr "#") [ Lit "Twitter" ];
                      anchor CButton socialButton (VStr "#") [ Lit "LinkedIn" ];
                      anchor CButton socialButton (VStr "#") [ Lit "Facebook" ] ] ];
              el CSection footer
                [ el CText footerText
                    [ Lit "Â© 2024 "; Expr companyName;
                      Lit ". All rights reserved." ];
                  el CText footerText
                    [ Lit "You're receiving this because you subscribed to our newsletter." ];
                  el CText footerText
                    [ anchor CLink unsubscribeLink unsubscribeUrl
                        [ Lit "Unsubscribe" ];
                      Lit " | ";
                      anchor CLink unsubscribeLink (VStr "#")
                        [ Lit "Update preferences" ] ] ] ] ] ]).

Definition NewsletterEmail (props : value) : outcome node :=
  title <- param props "title" (VStr "Weekly Newsletter") ;;
  articles <- param props "articles" sample_articles ;;
  companyName <- param props "companyName" (VStr "Unipack") ;;
  unsubscribeUrl <- param props "unsubscribeUrl" (VStr "#") ;;
  view title articles companyName unsubscribeUrl.

End Newsletter.

(* ================================================================= *)
(** ** Serialization of an element tree *)

(** The serializer is [render] of [@react-email/render], a dependency
    that is not part of the repository; its rules are taken from the
    description of the two serializations. *)

Module Serializer.

(** Modelled from the spec: the text an interpolated value contributes
    ([render] of [@react-email/render] is missing): a string is
    substituted as it is, a number in decimal, an array item by item,
    and a missing or otherwise unusable value degrades to empty text. *)
Fixpoint text_of_value (v : value) : string :=
  match v with
  | VStr s => s
  | VNum n => decimal n
  | VArr items => String.concat "" (map text_of_value items)
  | VUndefined | VNull | VBool _ | VObj _ => ""
  end.

(** Modelled from the spec: style attributes are inlined as
    presentational attributes ([render] is missing); a camel-case
    property name is written with hyphens. *)
Fixpoint hyphenate (s : string) : string :=
  match s with
  | EmptyString => EmptyString
  | String c s' =>
      let n := nat_of_ascii c in
      if andb (Nat.leb 65 n) (Nat.leb n 90)
      then String "-" (String (lower_ascii c) (hyphenate s'))
      else String c (hyphenate s')
  end.

(** Modelled from the spec: the inline form of a style object
    ([render] is missing). *)
Definition css (st : style) : string :=
  String.concat ";" (map (fun kv => hyphenate (fst kv) ++ ":" ++ snd kv) st).

(** Modelled from the spec: the [style] attribute of an element
    ([render] is missing). *)
Definition style_attr (st : option style) : string :=
  match st with
  | Some st => " style=" ++ dquote ++ css st ++ dquote
  | None => ""
  end.

(** Modelled from the spec: the element each node kind becomes
    ([render] is missing): containers are block-level wrappers, a text
    block a paragraph, a button or a link an anchor, a rule a divider;
    the document scaffolding is [html], [head], [body] and the
    preview-text block. *)
Definition tag (c : component) : string :=
  match c with
  | CHtml => "html"
  | CHead => "head"
  | CBody => "body"
  | CPreview | CContainer | CSection => "div"
  | CText => "p"
  | CButton | CLink => "a"
  | CHr => "hr"
  end.

(** Modelled from the spec: the HTML serialization of a tree ([render]
    is missing).  Each node has one fixed rule; text is the literal,
    already substituted string; an anchor carries its target in
    [href]. *)
Fixpoint html (n : node) : string :=
  match n with
  | Lit s => s
  | Expr v => text_of_value v
  | Elem c st href kids =>
      match c with
      | CHr => "<hr" ++ style_attr st ++ "/>"
      | _ =>
          ("<" ++ tag c ++
             match href with
             | Some v =>
                 (" href=" ++ dquote) ++ text_of_value v ++ dquote
             | None => ""
             end ++ style_attr st ++ ">")
          ++ String.concat "" (map html kids)
          ++ ("</" ++ tag c ++ ">")
      end
  end.

(** Modelled from the spec: the hyperlink nodes, whose target the text
    projection keeps ([render] is missing): [Button], and [Link], which
    is an anchor as well. *)
Definition is_anchor (c : component) : bool :=
  match c with
  | CButton | CLink => true
  | _ => false
  end.

(** Modelled from the spec: the text projection of a tree ([render]
    with [plainText] is missing).  [Some s] is a piece of visible text,
    [None] a boundary left by an element.  Styles, dividers, the head
    and the preview text are dropped; an anchor contributes its target
    and its label. *)
Fixpoint segs (n : node) : list (option string) :=
  match n with
  | Lit s => [Some s]
  | Expr v => [Some (text_of_value v)]
  | Elem c _ href kids =>
      match c with
      | CHead | CPreview | CHr => [None]
      | _ =>
          (None ::
             match href with
             | Some v =>
                 if is_anchor c then [Some (text_of_value v); None] else []
             | None => []
             end)
          ++ flat_map segs kids ++ [None]
      end
  end.

(** Modelled from the spec: adjacent pieces of text form one chunk, a
    boundary ends it ([render] with [plainText] is missing). *)
Fixpoint assemble (cur : option string) (l : list (option string))
  : list string :=
  match l with
  | [] => match cur with Some c => [c] | None => [] end
  | Some s :: rest =>
      assemble (Some (match cur with Some c => c ++ s | None => s end)) rest
  | None :: rest =>
      match cur with
      | Some c => c :: assemble None rest
      | None => assemble None rest
      end
  end.

(** Modelled from the spec: the chunks of visible text of a tree, in
    document order ([render] with [plainText] is missing). *)
Definition chunks (n : node) : list string := assemble None (segs n).

(** Modelled from the spec: [render(element, { plainText })] of
    [@react-email/render], which is missing: the document, or its text
    chunks separated by line breaks. *)
Definition render (element : node) (plainText : bool) : string :=
  if plainText
  then String.concat newline (chunks element)
  else "<!DOCTYPE html>" ++ html element.

End Serializer.
Export Serializer.

(* ================================================================= *)
(** ** Reading strings and trees *)

(** [needle] occurs in [hay] *)
Fixpoint contains (needle hay : string) : bool :=
  match hay with
  | EmptyString => String.prefix needle hay
  | String _ rest => String.prefix needle hay || contains needle rest
  end.

(** The number of positions of [hay] at which [needle] starts. *)
Fixpoint occurrences (needle hay : string) : nat :=
  match hay with
  | EmptyString => if String.prefix needle hay then 1 else 0
  | String _ rest =>
      (if String.prefix needle hay then 1 else 0) + occurrences needle rest
  end.





Fixpoint style_eqb (a b : style) : bool :=
  match a, b with
  | [], [] => true
  | (k, v) :: a', (k', v') :: b' =>
      String.eqb k k' && String.eqb v v' && style_eqb a' b'
  | _, _ => false
  end.

(** Every sub-tree satisfying [p], in document order. *)
Fixpoint find_all (p : node -> bool) (n : node) : list node :=
  (if p n then [n] else []) ++
  match n with
  | Elem _ _ _ kids => flat_map (find_all p) kids
  | _ => []
  end.

Definition is_elem (c : component) (s : style) (n : node) : bool :=
  match n with
  | Elem c' (Some s') _ _ =>
      (if component_eq_dec c c' then true else false) && style_eqb s s'
  | _ => false
  end.

Definition children_of (n : node) : list node :=
  match n with
  | Elem _ _ _ kids => kids
  | _ => []
  end.

Definition href_of (n : node) : option value :=
  match n with
  | Elem _ _ href _ => href
  | _ => None
  end.

(** The literal texts of a tree. *)
Fixpoint literals (n : node) : list string :=
  match n with
  | Lit s => [s]
  | Expr _ => []
  | Elem _ _ _ kids => flat_map literals kids
  end.

(* ================================================================= *)
(** ** The template registry *)

Inductive template_fn : Type := TWelcome | TNewsletter | TPasswordReset.

(** The object literal [templates]: its own keys, in source order. *)
Definition templates : list (string * template_fn) :=
  [ ("welcome", TWelcome);
    ("newsletter", TNewsletter);
    ("password-reset", TPasswordReset) ].

(** [Object.keys(templates)] *)
Definition template_names : list string := map fst templates.

(** The members an object literal inherits from [Object.prototype];
    each of them is a truthy value. *)
Definition object_prototype_members : list string :=
  [ "constructor"; "__proto__"; "hasOwnProperty"; "isPrototypeOf";
    "propertyIsEnumerable"; "toLocaleString"; "toString"; "valueOf";
    "__defineGetter__"; "__defineSetter__"; "__lookupGetter__";
    "__lookupSetter__" ].

(** What [templates[key]] evaluates to, when it is not [undefined]. *)
Inductive member : Type :=
| Own (t : template_fn)
| Inherited (key : string).

Fixpoint own_template (key : string) (l : list (string * template_fn))
  : option template_fn :=
  match l with
  | [] => None
  | (k, t) :: rest => if String.eqb key k then Some t else own_template key rest
  end.

(** [templates[key]]: an own property first, then the prototype chain;
    [None] is [undefined]. *)
Definition templates_get (key : string) : option member :=
  match own_template key templates with
  | Some t => Some (Own t)
  | None =>
      if existsb (String.eqb key) object_prototype_members
      then Some (Inherited key)
      else None
  end.

(** [Template(data)] for a registered template. *)
Definition template (t : template_fn) (data : value) : outcome node :=
  match t with
  | TWelcome => Welcome.WelcomeEmail data
  | TNewsletter => Newsletter.NewsletterEmail data
  | TPasswordReset => PasswordReset.PasswordResetEmail data
  end.

(** [getTemplateDescription] *)
Definition getTemplateDescription (templateName : string) : string :=
  match
    lookup templateName
      [ ("welcome", VStr "Welcome email for new user registration");
        ("newsletter", VStr "Newsletter email with articles and updates");
        ("password-reset", VStr "Password reset email with secure reset link") ]
  with
  | Some (VStr d) => d
  | _ => "Email template"
  end.

(** [getSampleData].  (For an inherited key the source returns the
    inherited member itself; it only ever reaches [foreign_render],
    which is given [{}] here.) *)
Definition getSampleData (templateName : string) : value :=
  match
    lookup templateName
      [ ("welcome",
          VObj [ ("username", VStr "John Doe");
                 ("loginUrl", VStr "https://app.unipack.com/login");
                 ("companyName", VStr "Unipack") ]);
        ("newsletter",
          VObj [ ("title", VStr "Weekly Newsletter");
                 ("companyName", VStr "Unipack");
                 ("articles",
                   VArr
                     [ VObj [ ("title", VStr "Introducing New Features");
                              ("excerpt", VStr "We are excited to announce several new features that will enhance your experience...");
                              ("url", VStr "https://blog.unipack.com/new-features");
                              ("readTime", VStr "5 min read") ];
                       VObj [ ("title", VStr "Product Updates");
                              ("excerpt", VStr "This month we have shipped improvements to performance, security, and user interface...");
                              ("url", VStr "https://blog.unipack.com/product-updates");
                              ("readTime", VStr "3 min read") ] ]);
                 ("unsubscribeUrl", VStr "https://app.unipack.com/unsubscribe") ]);
        ("password-reset",
          VObj [ ("username", VStr "John Doe");
                 ("resetUrl", VStr "https://app.unipack.com/reset-password?token=abc123");
                 ("companyName", VStr "Unipack");
                 ("expiryTime", VStr "24 hours") ]) ]
  with
  | Some d => d
  | None => VObj []
  end.

(* ================================================================= *)
(** ** HTTP messages *)

(** A request, as the handlers read it: the method, the path of the
    URL, and the body as [JSON.parse] sees it ([None] when the text is
    not JSON).  [now] stands for what [new Date().toISOString()]
    returns when the request is handled. *)
Record request : Type := {
  method : string;
  pathname : string;
  body : option value
}.

(** A response body: nothing, the object given to [JSON.stringify],
    a text, or the documentation page (static markup around the list
    of template names, not transcribed). *)
Inductive payload : Type :=
| Empty
| Json (v : value)
| Raw (s : string)
| DocsPage.

Record response : Type := {
  status : nat;
  headers : list (string * string);
  content : payload
}.

(** The Content-Type a [Response] built from a string gets when its
    headers name none. *)
Definition text_plain : list (string * string) :=
  [ ("Content-Type", "text/plain;charset=utf-8") ].

Definition corsHeaders : list (string * string) :=
  [ ("Access-Control-Allow-Origin", "*");
    ("Access-Control-Allow-Methods", "GET, POST, PUT, DELETE, OPTIONS");
    ("Access-Control-Allow-Headers", "Content-Type, Authorization") ].

(** The text after the first occurrence of [sep] in [path]
    ([path.split(sep)[1]]), used as a property key. *)
Definition segment (sep path : string) : string :=
  match index (split sep path) 1 with
  | VStr s => s
  | _ => "undefined"
  end.

Definition not_found_message (templateName : string) : string :=
  "Template '" ++ templateName ++ "' not found. Available templates: "
  ++ String.concat ", " template_names.

(** The outcome of one [renderEmailTemplate] call: the [html] and
    [text] fields of [result], when set. *)
Record rendered : Type := {
  html_field : option string;
  text_field : option string
}.

(** [{ success: true, ...rendered }] *)
Definition success_body (r : rendered) : value :=
  VObj
    (("success", VBool true)
       :: match html_field r with Some h => [("html", VStr h)] | None => [] end
       ++ match text_field r with Some t => [("text", VStr t)] | None => [] end).

Definition failure_body (msg : string) : value :=
  VObj [ ("success", VBool false); ("error", VStr msg) ].

Definition template_listing : value :=
  VObj
    [ ("success", VBool true);
      ("templates",
        VArr
          (map
             (fun name =>
                VObj [ ("name", VStr name);
                       ("description", VStr (getTemplateDescription name));
                       ("endpoint", VStr ("/render/" ++ name)) ])
             template_names)) ].

Definition health_body (now : string) : value :=
  VObj [ ("status", VStr "healthy");
         ("timestamp", VStr now);
         ("version", VStr "1.0.0") ].

Definition route_not_found_body : value :=
  VObj [ ("success", VBool false);
         ("error", VStr "Route not found");
         ("availableRoutes",
           VArr [ VStr "/health"; VStr "/templates";
                  VStr "/render/{templateName}";
                  VStr "/preview/{templateName}" ]) ].

(** The [success] field of a JSON response. *)
Definition success_of (r : response) : option value :=
  match content r with
  | Json (VObj fields) => lookup "success" fields
  | _ => None
  end.

Definition field_of (k : string) (r : response) : option value :=
  match content r with
  | Json (VObj fields) => lookup k fields
  | _ => None
  end.

Section Servers.

(** What [render(M(data), options)] evaluates to when [M] is not a
    template but a member inherited from [Object.prototype]: decided by
    the runtime and the rendering library, left open here. *)
Variable foreign_render : string -> value -> bool -> outcome string.

Definition render_member (m : member) (data : value) (plainText : bool)
  : outcome string :=
  match m with
  | Own t => e <- template t data ;; Ok (render e plainText)
  | Inherited k => foreign_render k data plainText
  end.

(** [renderEmailTemplate(templateName, data, format = 'html')] *)
Definition renderEmailTemplate (templateName : string) (data format : value)
  : outcome rendered :=
  let format := default_to (VStr "html") format in
  match templates_get templateName with
  | None => Throw (Error ("Template '" ++ templateName ++ "' not found"))
  | Some Template =>
      h <- (if is_str format "html" || is_str format "both"
            then x <- render_member Template data false ;; Ok (Some x)
            else Ok None) ;;
      t <- (if is_str format "text" || is_str format "both"
            then x <- render_member Template data true ;; Ok (Some x)
            else Ok None) ;;
      Ok {| html_field := h; text_field := t |}
  end.

(** The part of a render request shared by the two servers: read
    [format] and [data] off the parsed body and render. *)
Definition render_parsed (templateName : string) (parsed : value)
  : outcome rendered :=
  f <- get parsed "format" ;;
  d <- get parsed "data" ;;
  renderEmailTemplate templateName (or_else d (VObj [])) (or_else f (VStr "html")).

(** *** server/index.ts ([Bun.serve]) *)

Definition bun_json (code : nat) (v : value) : response :=
  {| status := code;
     headers := ("Content-Type", "application/json") :: corsHeaders;
     content := Json v |}.

(** The body of the [try] block of [fetch]. *)
Definition fetch_routes (now : string) (req : request) : outcome response :=
  let path := pathname req in
  if String.eqb path "/health" && String.eqb (method req) "GET" then
    Ok (bun_json 200 (health_body now))
  else if String.eqb path "/templates" && String.eqb (method req) "GET" then
    Ok (bun_json 200 template_listing)
  else if String.prefix "/render/" path && String.eqb (method req) "POST" then
    let templateName := segment "/render/" path in
    match templates_get templateName with
    | None => Ok (bun_json 404 (failure_body (not_found_message templateName)))
    | Some _ =>
        match body req with
        | None => Ok (bun_json 400 (failure_body "Invalid JSON body"))
        | Some parsed =>
            r <- render_parsed templateName parsed ;;
            Ok (bun_json 200 (success_body r))
        end
    end
  else if String.prefix "/preview/" path && String.eqb (method req) "GET" then
    let templateName := segment "/preview/" path in
    match templates_get templateName with
    | None =>
        Ok {| status := 404;
              headers := corsHeaders ++ text_plain;
              content := Raw (not_found_message templateName) |}
    | Some _ =>
        r <- renderEmailTemplate templateName (getSampleData templateName)
               (VStr "html") ;;
        Ok {| status := 200;
              headers := ("Content-Type", "text/html") :: corsHeaders;
              content := match html_field r with
                         | Some h => Raw h
                         | None => Empty
                         end |}
    end
  else if String.eqb path "/" && String.eqb (method req) "GET" then
    Ok {| status := 200;
          headers := ("Content-Type", "text/html") :: corsHeaders;
          content := DocsPage |}
  else
    Ok (bun_json 404 route_not_found_body).

(** [fetch(req)] of the Bun server. *)
Definition fetch (now : string) (req : request) : response :=
  if String.eqb (method req) "OPTIONS" then
    {| status := 200; headers := corsHeaders; content := Empty |}
  else
    match fetch_routes now req with
    | Ok r => r
    | Throw e => bun_json 500 (failure_body (message e))
    end.

(** *** server/node-server.ts ([createServer]) *)

(** The CORS headers are set on [res] before anything else. *)
Definition node_reply (code : nat) (extra : list (string * string))
  (c : payload) : response :=
  {| status := code; headers := corsHeaders ++ extra; content := c |}.

Definition node_json (code : nat) (v : value) : response :=
  node_reply code [("Content-Type", "application/json")] (Json v).

(** The outer [try] block of the request listener, from the point
    where [new URL(req.url, base)] has parsed the target into
    [pathname] (see [createServer_listener] for a target that does not
    parse); for a render request, the response is the one the [end]
    listener of the request writes. *)
Definition createServer_routes (now : string) (req : request)
  : outcome response :=
  let path := pathname req in
  if String.eqb (method req) "OPTIONS" then
    Ok (node_reply 200 [] Empty)
  else if String.eqb path "/health" && String.eqb (method req) "GET" then
    Ok (node_json 200 (health_body now))
  else if String.eqb path "/templates" && String.eqb (method req) "GET" then
    Ok (node_json 200 template_listing)
  else if String.prefix "/render/" path && String.eqb (method req) "POST" then
    let templateName := segment "/render/" path in
    match templates_get templateName with
    | None => Ok (node_json 404 (failure_body (not_found_message templateName)))
    | Some _ =>
        match
          match body req with
          | None => Throw (Error "Unexpected token")
          | Some parsed => render_parsed templateName parsed
          end
        with
        | Ok r => Ok (node_json 200 (success_body r))
        | Throw _ => Ok (node_json 400 (failure_body "Invalid JSON body"))
        end
    end
  else if String.prefix "/preview/" path && String.eqb (method req) "GET" then
    let templateName := segment "/preview/" path in
    match templates_get templateName with
    | None => Ok (node_reply 404 [] (Raw (not_found_message templateName)))
    | Some _ =>
        r <- renderEmailTemplate templateName (getSampleData templateName)
               (VStr "html") ;;
        Ok (node_reply 200 [("Content-Type", "text/html")]
              match html_field r with
              | Some h => Raw h
              | None => Empty
              end)
    end
  else if String.eqb path "/" && String.eqb (method req) "GET" then
    Ok (node_reply 200 [("Content-Type", "text/html")] DocsPage)
  else
    Ok (node_json 404 route_not_found_body).

(** The request listener given to [createServer], for a request whose
    target has parsed. *)
Definition createServer (now : string) (req : request) : response :=
  match createServer_routes now req with
  | Ok r => r
  | Throw e => node_json 500 (failure_body (message e))
  end.

(** The request listener given to [createServer], from the raw
    request.  [parsed] is the pathname [new URL(req.url, base)] gives,
    [None] when it throws; the call is the first statement of the
    [try] block, before the CORS headers are set, so the [catch] block
    then answers with the Content-Type alone. *)
Definition createServer_listener (now m : string) (parsed : option string)
  (b : option value) : response :=
  match parsed with
  | Some path => createServer now {| method := m; pathname := path; body := b |}
  | None =>
      {| status := 500;
         headers := [("Content-Type", "application/json")];
         content := Json (failure_body "Invalid URL") |}
  end.

End Servers.

(* ================================================================= *)
(** ** Notions used to state the properties *)

(** The merge step in the words of the specification: the Data Bag's
    value if present and non-null, else the declared default. *)
Definition spec_merge (bag : list (string * value)) (k : string)
  (dflt : value) : value :=
  match lookup k bag with
  | Some VNull => dflt
  | Some v => v
  | None => dflt
  end.

(** The value a destructured parameter is bound to, read off the Data
    Bag: the bag's value unless the key is missing or [undefined]. *)
Definition merged (bag : list (string * value)) (k : string)
  (dflt : value) : value :=
  match lookup k bag with
  | Some VUndefined => dflt
  | Some v => v
  | None => dflt
  end.

Definition is_string (v : value) : bool :=
  match v with
  | VStr _ => true
  | _ => false
  end.

Definition nullish (v : value) : bool :=
  match v with
  | VUndefined | VNull => true
  | _ => false
  end.

(** An array none of whose elements is [null] or [undefined]. *)
Definition array_of_objects (v : value) : bool :=
  match v with
  | VArr items => forallb (fun a => negb (nullish a)) items
  | _ => false
  end.

(** The field [k] of an article. *)
Definition field (a : value) (k : string) : value :=
  match a with
  | VObj fields =>
      match lookup k fields with
      | Some v => v
      | None => VUndefined
      end
  | _ => VUndefined
  end.

(** An article record as [NewsletterEmailProps] declares it: an object
    whose [readTime], when present, is a string. *)
Definition article_record (a : value) : bool :=
  match a with
  | VObj fields =>
      match lookup "readTime" fields with
      | None | Some (VStr _) => true
      | Some _ => false
      end
  | _ => false
  end.

Definition read_time_absent_or_empty (a : value) : bool :=
  match field a "readTime" with
  | VUndefined | VStr EmptyString => true
  | _ => false
  end.

Definition is_hr (n : node) : bool :=
  match n with
  | Elem CHr _ _ _ => true
  | _ => false
  end.

(** The article blocks of a newsletter tree, in document order. *)
Definition article_blocks (tree : node) : list node :=
  find_all (is_elem CSection Newsletter.articleSection) tree.



(** A stand-in for [foreign_render] where a concrete one is needed. *)
Definition no_foreign (key : string) (data : value) (plainText : bool)
  : outcome string :=
  Throw (TypeError (key ++ " is not a template")).

(** The request body of the password-reset scenario, parsed. *)
Definition ana_body : value :=
  VObj
    [ ("data",
        VObj [ ("username", VStr "Ana");
               ("resetUrl", VStr "https://x/y");
               ("expiryTime", VStr "2 hours") ]);
      ("format", VStr "both") ].

Definition ana_expectation (r : response) : Prop :=
  status r = 200 /\ success_of r = Some (VBool true) /\
  match field_of "html" r, field_of "text" r with
  | Some (VStr h), Some (VStr t) =>
      contains "Ana" h = true
      /\ occurrences "https://x/y" h = 2
      /\ contains "2 hours" h = true
      /\ contains "Ana" t = true
      /\ contains "https://x/y" t = true
      /\ contains "2 hours" t = true
      /\ contains "<" t = false
      /\ contains ">" t = false
  | _, _ => False
  end.

Definition post (path : string) (b : option value) : request :=
  {| method := "POST"; pathname := path; body := b |}.

(** [format === mode || format === 'both'] *)
Definition wants (format : value) (mode : string) : bool :=
  is_str format mode || is_str format "both".

(** The tree carries the copyright year as literal text. *)
Definition has_copyright_literal (tree : node) : Prop :=
  exists l, In l (literals tree) /\ contains "© 2024 " l = true.


Definition is_leaf (n : node) : bool :=
  match n with
  | Lit _ | Expr _ => true
  | Elem _ _ _ _ => false
  end.








(* ================================================================= *)
(** ** The simple test server *)

Module Simple.

(** The page served at [/]: the template literal [docs], as written. *)
Definition docs : string := "
          <html>
            <head>
              <title>Unipack Emails API</title>
            </head>
            <body>
              <h1>🚀 Unipack Emails API</h1>
              <p>Server is running successfully!</p>
              <p>React Email components are being debugged...</p>
            </body>
          </html>
        ".

(** [fetch(req)] of the server without React Email components: the
    preflight answer, the health check, the home page, and 404 for
    everything else. *)
Definition fetch (now : string) (req : request) : response :=
  if String.eqb (method req) "OPTIONS" then
    {| status := 200; headers := corsHeaders; content := Empty |}
  else if String.eqb (pathname req) "/health" && String.eqb (method req) "GET" then
    {| status := 200;
       headers := ("Content-Type", "application/json") :: corsHeaders;
       content := Json (health_body now) |}
  else if String.eqb (pathname req) "/" && String.eqb (method req) "GET" then
    {| status := 200;
       headers := ("Content-Type", "text/html") :: corsHeaders;
       content := Raw docs |}
  else
    {| status := 404;
       headers := ("Content-Type", "application/json") :: corsHeaders;
       content := Json (VObj [ ("success", VBool false);
                               ("error", VStr "Route not found") ]) |}.

End Simple.

(* ================================================================= *)
(** ** Further notions *)

Definition http_get (path : string) : request :=
  {| method := "GET"; pathname := path; body := None |}.

(** No character of the string is a slash. *)
Fixpoint no_slash (s : string) : bool :=
  match s with
  | EmptyString => true
  | String c rest => negb (Ascii.eqb c "/") && no_slash rest
  end.

(** The node is an element with an [href] prop. *)
Definition has_href (n : node) : bool :=
  match n with
  | Elem _ _ (Some _) _ => true
  | _ => false
  end.

(** The error envelope [{ success: false, error }] and nothing else. *)
Definition is_error_envelope (r : response) : Prop :=
  exists msg, content r = Json (failure_body msg).

(** The success envelope: [success: true] and no [error] field. *)
Definition is_success_envelope (r : response) : Prop :=
  exists rendered, content r = Json (success_body rendered).

(* ================================================================= *)
(** ** Strings *)

Lemma sapp_assoc (a b c : string) : (a ++ b) ++ c = a ++ b ++ c.
Proof.
  induction a as [|x a IH]; simpl; [reflexivity | now rewrite IH].
Qed.

Lemma sapp_nil_r (a : string) : a ++ "" = a.
Proof.
  induction a as [|x a IH]; simpl; [reflexivity | now rewrite IH].
Qed.










(* ================================================================= *)
(** ** The text projection is a projection of the document *)









(* ================================================================= *)
(** ** The servers: template lookup and the render route *)

(** A name that [templates] does not resolve, own or inherited, is
    answered 404 with the list of template names by both servers,
    whatever the body is: the body is not looked at. *)
Lemma render_unresolved_name_404 foreign now path b :
  String.prefix "/render/" path = true ->
  templates_get (segment "/render/" path) = None ->
  fetch foreign now (post path b)
    = bun_json 404 (failure_body (not_found_message (segment "/render/" path)))
  /\ createServer foreign now (post path b)
    = node_json 404 (failure_body (not_found_message (segment "/render/" path))).
Proof.
  intros Hp Hn.
  unfold fetch, fetch_routes, createServer, createServer_routes, post; simpl.
  rewrite !andb_false_r, Hp, Hn. simpl. split; reflexivity.
Qed.

Lemma not_found_message_lists_names name :
  not_found_message name
  = "Template '" ++ name
    ++ "' not found. Available templates: welcome, newsletter, password-reset".
Proof. reflexivity. Qed.

(** The render route of the Bun server, once the request is known to
    be a POST under [/render/]. *)
Lemma fetch_render_route foreign now path b :
  String.prefix "/render/" path = true ->
  fetch foreign now (post path b) =
  match templates_get (segment "/render/" path) with
  | None =>
      bun_json 404 (failure_body (not_found_message (segment "/render/" path)))
  | Some _ =>
      match b with
      | None => bun_json 400 (failure_body "Invalid JSON body")
      | Some parsed =>
          match render_parsed foreign (segment "/render/" path) parsed with
          | Ok r => bun_json 200 (success_body r)
          | Throw e => bun_json 500 (failure_body (message e))
          end
      end
  end.
Proof.
  intros Hp. unfold fetch, fetch_routes, post; simpl.
  rewrite !andb_false_r, Hp. simpl.
  destruct (templates_get (segment "/render/" path)); [|reflexivity].
  destruct b as [parsed|]; [|reflexivity].
  destruct (render_parsed foreign (segment "/render/" path) parsed); reflexivity.
Qed.

(** The render route of the Node server. *)
Lemma createServer_render_route foreign now path b :
  String.prefix "/render/" path = true ->
  createServer foreign now (post path b) =
  match templates_get (segment "/render/" path) with
  | None =>
      node_json 404 (failure_body (not_found_message (segment "/render/" path)))
  | Some _ =>
      match b with
      | None => node_json 400 (failure_body "Invalid JSON body")
      | Some parsed =>
          match render_parsed foreign (segment "/render/" path) parsed with
          | Ok r => node_json 200 (success_body r)
          | Throw _ => node_json 400 (failure_body "Invalid JSON body")
          end
      end
  end.
Proof.
  intros Hp. unfold createServer, createServer_routes, post; simpl.
  rewrite !andb_false_r, Hp. simpl.
  destruct (templates_get (segment "/render/" path)); [|reflexivity].
  destruct b as [parsed|]; [|reflexivity].
  destruct (render_parsed foreign (segment "/render/" path) parsed); reflexivity.
Qed.

(** C7 (evaluation at the failing input): [constructor] is not a
    registered template, yet [templates['constructor']] is the member
    inherited from [Object.prototype], so the not-found branch is not
    taken: whatever the body and whatever the rendering of that member
    gives, neither server answers 404. *)
Theorem C7_inherited_name_is_not_answered_404 :
  forall foreign now b,
    ~ In "constructor" template_names
    /\ status (fetch foreign now (post "/render/constructor" b)) <> 404
    /\ status (createServer foreign now (post "/render/constructor" b)) <> 404.
Proof.
  intros foreign now b. split; [|split].
  - simpl. intros [H|[H|[H|[]]]]; discriminate H.
  - rewrite fetch_render_route by reflexivity.
    change (segment "/render/" "/render/constructor") with "constructor".
    change (templates_get "constructor") with (Some (Inherited "constructor")).
    destruct b as [parsed|]; [|discriminate].
    destruct (render_parsed foreign "constructor" parsed); discriminate.
  - rewrite createServer_render_route by reflexivity.
    change (segment "/render/" "/render/constructor") with "constructor".
    change (templates_get "constructor") with (Some (Inherited "constructor")).
    destruct b as [parsed|]; [|discriminate].
    destruct (render_parsed foreign "constructor" parsed); discriminate.
Qed.

(** C10 (evaluation at the failing input): for the unregistered name
    [constructor] and a body that is not JSON, both servers get as far
    as parsing the body and answer 400 "Invalid JSON body". *)
Theorem C10_inherited_name_reaches_body_parsing :
  forall foreign now,
    fetch foreign now (post "/render/constructor" None)
      = bun_json 400 (failure_body "Invalid JSON body")
    /\ createServer foreign now (post "/render/constructor" None)
      = node_json 400 (failure_body "Invalid JSON body").
Proof.
  intros foreign now. split; reflexivity.
Qed.

(* ================================================================= *)
(** ** Concrete renderings *)

(** C8: the password-reset scenario.  Both servers answer 200 with
    [success: true]; the html contains "Ana", "https://x/y" exactly
    twice and "2 hours"; the text contains the three of them and
    neither '<' nor '>'. *)
Theorem C8_password_reset_scenario :
  forall foreign now,
    ana_expectation
      (fetch foreign now (post "/render/password-reset" (Some ana_body)))
    /\ ana_expectation
      (createServer foreign now (post "/render/password-reset" (Some ana_body))).
Proof.
  intros foreign now. split; vm_compute; repeat split; reflexivity.
Qed.

(** C9: the welcome template built from an empty Data Bag has every
    parameter at its default, and its html-mode rendering contains the
    default user name "User" and the default company name "Unipack". *)
Theorem C9_welcome_defaults_in_html :
  forall foreign,
    Welcome.WelcomeEmail (VObj [])
      = Ok (Welcome.view (VStr "User") (VStr "#") (VStr "Unipack"))
    /\ exists h,
         renderEmailTemplate foreign "welcome" (VObj []) (VStr "html")
           = Ok {| html_field := Some h; text_field := None |}
         /\ contains "User" h = true
         /\ contains "Unipack" h = true
         /\ contains "Welcome, User!" h = true.
Proof.
  intros foreign. split; [reflexivity|].
  eexists. split; [vm_compute; reflexivity|].
  repeat split; vm_compute; reflexivity.
Qed.

(* ================================================================= *)
(** ** The merge step *)

Lemma param_object bag k d : param (VObj bag) k d = Ok (merged bag k d).
Proof.
  unfold param, merged; simpl.
  destruct (lookup k bag) as [[]|]; reflexivity.
Qed.

(** Where the key is missing, or bound to a value that is neither
    [null] nor [undefined], the code and the specification's wording
    agree; they part on [null], which the code keeps. *)
Lemma merged_vs_spec bag k d :
  merged bag k d =
  match lookup k bag with
  | Some VNull => VNull
  | Some VUndefined => d
  | _ => spec_merge bag k d
  end.
Proof.
  unfold merged, spec_merge. destruct (lookup k bag) as [[]|]; reflexivity.
Qed.

(** C1 (counterexample): with [username: null] the specification's
    merge gives the default "User", but [WelcomeEmail] binds [username]
    to [null]: the tree differs from the one built when the key is
    omitted, and the rendering reads "Welcome, !" and contains no
    "User". *)
Lemma C1_null_username_is_not_defaulted :
  let bag := [("username", VNull)] in
  let tree := Welcome.view VNull (VStr "#") (VStr "Unipack") in
  spec_merge bag "username" (VStr "User") = VStr "User"
  /\ Welcome.WelcomeEmail (VObj bag) = Ok tree
  /\ Welcome.WelcomeEmail (VObj bag) <> Welcome.WelcomeEmail (VObj [])
  /\ contains "Welcome, !" (render tree false) = true
  /\ contains "User" (render tree false) = false.
Proof.
  cbv zeta. repeat split; try (vm_compute; reflexivity).
  intros H.
  apply (f_equal (fun o => match o with
                           | Ok t => contains "User" (render t false)
                           | Throw _ => false
                           end)) in H.
  vm_compute in H. discriminate H.
Qed.

Lemma WelcomeEmail_object bag :
  Welcome.WelcomeEmail (VObj bag)
  = Ok (Welcome.view
          (merged bag "username" (VStr "User"))
          (merged bag "loginUrl" (VStr "#"))
          (merged bag "companyName" (VStr "Unipack"))).
Proof.
  unfold Welcome.WelcomeEmail. rewrite !param_object. reflexivity.
Qed.

Lemma PasswordResetEmail_object bag :
  PasswordReset.PasswordResetEmail (VObj bag)
  = PasswordReset.view
      (merged bag "username" (VStr "User"))
      (merged bag "resetUrl" (VStr "#"))
      (merged bag "companyName" (VStr "Unipack"))
      (merged bag "expiryTime" (VStr "24 hours")).
Proof.
  unfold PasswordReset.PasswordResetEmail. rewrite !param_object. reflexivity.
Qed.

Lemma NewsletterEmail_object bag :
  Newsletter.NewsletterEmail (VObj bag)
  = Newsletter.view
      (merged bag "title" (VStr "Weekly Newsletter"))
      (merged bag "articles" Newsletter.sample_articles)
      (merged bag "companyName" (VStr "Unipack"))
      (merged bag "unsubscribeUrl" (VStr "#")).
Proof.
  unfold Newsletter.NewsletterEmail. rewrite !param_object. reflexivity.
Qed.

(** C1 (amended): for every Data Bag and every declared parameter of
    the three templates, the value substituted is the bag's value when
    the key is bound to anything but [undefined], [null] included, and
    the declared default otherwise. *)
Theorem C1_merge_takes_default_only_for_undefined :
  forall bag,
    Welcome.WelcomeEmail (VObj bag)
      = Ok (Welcome.view
              (merged bag "username" (VStr "User"))
              (merged bag "loginUrl" (VStr "#"))
              (merged bag "companyName" (VStr "Unipack")))
    /\ PasswordReset.PasswordResetEmail (VObj bag)
      = PasswordReset.view
          (merged bag "username" (VStr "User"))
          (merged bag "resetUrl" (VStr "#"))
          (merged bag "companyName" (VStr "Unipack"))
          (merged bag "expiryTime" (VStr "24 hours"))
    /\ Newsletter.NewsletterEmail (VObj bag)
      = Newsletter.view
          (merged bag "title" (VStr "Weekly Newsletter"))
          (merged bag "articles" Newsletter.sample_articles)
          (merged bag "companyName" (VStr "Unipack"))
          (merged bag "unsubscribeUrl" (VStr "#"))
    /\ (forall k d,
          merged bag k d =
          match lookup k bag with
          | Some VUndefined | None => d
          | Some v => v
          end).
Proof.
  intros bag. split; [|split; [|split]].
  - apply WelcomeEmail_object.
  - apply PasswordResetEmail_object.
  - apply NewsletterEmail_object.
  - intros k d. unfold merged. destruct (lookup k bag) as [[]|]; reflexivity.
Qed.

(* ================================================================= *)
(** ** Totality of the build step *)

Lemma article_block_ok articles i a :
  nullish a = false -> exists b, Newsletter.article_block articles i a = Ok b.
Proof.
  unfold Newsletter.article_block.
  destruct a; simpl; intros H; try discriminate H; eexists; reflexivity.
Qed.

Lemma article_block_throws articles i a :
  nullish a = true -> exists e, Newsletter.article_block articles i a = Throw e.
Proof.
  unfold Newsletter.article_block.
  destruct a; simpl; intros H; try discriminate H; eexists; reflexivity.
Qed.

Lemma map_from_article_blocks articles items :
  forall i,
    (exists bs, map_from (Newsletter.article_block articles) i items = Ok bs)
    <-> forallb (fun a => negb (nullish a)) items = true.
Proof.
  induction items as [|a items IH]; intros i; simpl.
  - split; [reflexivity | intros _; eexists; reflexivity].
  - destruct (nullish a) eqn:Ha; simpl.
    + destruct (article_block_throws articles i a Ha) as (e & ->). simpl.
      split; [intros (bs & H); discriminate H | discriminate].
    + destruct (article_block_ok articles i a Ha) as (b & ->). simpl.
      rewrite <- (IH (S i)). split.
      * intros (bs & H).
        destruct (map_from (Newsletter.article_block articles) (S i) items);
          [eexists; reflexivity | discriminate H].
      * intros (bs & ->). eexists; reflexivity.
Qed.

(** C2 (counterexample): a non-array [articles] and a non-string
    [companyName] make the build step throw. *)
Lemma C2_ill_typed_values_throw :
  Newsletter.NewsletterEmail (VObj [("articles", VStr "not an array")])
    = Throw (TypeError "articles.map is not a function")
  /\ PasswordReset.PasswordResetEmail (VObj [("companyName", VNum 42)])
    = Throw (TypeError "companyName.toLowerCase is not a function")
  /\ ~ (exists tree,
          Newsletter.NewsletterEmail (VObj [("articles", VStr "not an array")])
          = Ok tree).
Proof.
  split; [reflexivity | split; [reflexivity|]].
  intros (tree & H). discriminate H.
Qed.

Lemma PasswordReset_view_ok u r c e :
  (exists tree, PasswordReset.view u r c e = Ok tree) <-> is_string c = true.
Proof.
  unfold PasswordReset.view.
  destruct c; simpl;
    (split;
     [ intros (tree & H); first [discriminate H | reflexivity]
     | intros H; first [discriminate H | eexists; reflexivity] ]).
Qed.

Lemma Newsletter_view_ok t a c u :
  (exists tree, Newsletter.view t a c u = Ok tree) <-> array_of_objects a = true.
Proof.
  unfold Newsletter.view.
  destruct a as [| | | | |items|]; simpl;
    try (split; [intros (tree & H); discriminate H | intros H; discriminate H]).
  rewrite <- (map_from_article_blocks (VArr items) items 0). split.
  - intros (tree & H).
    destruct (map_from (Newsletter.article_block (VArr items)) 0 items);
      [eexists; reflexivity | discriminate H].
  - intros (bs & ->). eexists; reflexivity.
Qed.

Lemma article_block_throws_type articles i a :
  nullish a = true ->
  exists what, Newsletter.article_block articles i a = Throw (TypeError what).
Proof.
  unfold Newsletter.article_block.
  destruct a; simpl; intros H; try discriminate H; eexists; reflexivity.
Qed.

Lemma map_from_article_blocks_throws articles items :
  forall i,
    forallb (fun a => negb (nullish a)) items = false ->
    exists what,
      map_from (Newsletter.article_block articles) i items
      = Throw (TypeError what).
Proof.
  induction items as [|a items IH]; intros i; simpl; [discriminate|].
  destruct (nullish a) eqn:Ha; simpl.
  - intros _. destruct (article_block_throws_type articles i a Ha) as (w & ->).
    exists w. reflexivity.
  - intros H. destruct (article_block_ok articles i a Ha) as (b & ->). simpl.
    destruct (IH (S i) H) as (w & ->). exists w. reflexivity.
Qed.

Lemma PasswordReset_view_throws u r c e :
  is_string c = false ->
  exists what, PasswordReset.view u r c e = Throw (TypeError what).
Proof.
  unfold PasswordReset.view.
  destruct c; simpl; intros H; try discriminate H; eexists; reflexivity.
Qed.

Lemma Newsletter_view_throws t a c u :
  array_of_objects a = false ->
  exists what, Newsletter.view t a c u = Throw (TypeError what).
Proof.
  unfold Newsletter.view.
  destruct a as [| | | | |items|]; simpl; intros H;
    try (eexists; reflexivity).
  destruct (map_from_article_blocks_throws (VArr items) items 0 H) as (w & ->).
  exists w. reflexivity.
Qed.

(** C2 (amended): the welcome template builds from every Data Bag;
    password-reset builds when the merged [companyName] is a string and
    throws a TypeError when it is anything else; newsletter builds when
    the merged [articles] is an array without [null] or [undefined]
    elements and throws a TypeError when it is anything else. *)
Theorem C2_build_completes_exactly_on_typed_values :
  forall bag,
    (exists tree, Welcome.WelcomeEmail (VObj bag) = Ok tree)
    /\ (if is_string (merged bag "companyName" (VStr "Unipack"))
        then exists tree, PasswordReset.PasswordResetEmail (VObj bag) = Ok tree
        else exists what,
               PasswordReset.PasswordResetEmail (VObj bag)
               = Throw (TypeError what))
    /\ (if array_of_objects (merged bag "articles" Newsletter.sample_articles)
        then exists tree, Newsletter.NewsletterEmail (VObj bag) = Ok tree
        else exists what,
               Newsletter.NewsletterEmail (VObj bag) = Throw (TypeError what)).
Proof.
  intros bag.
  rewrite WelcomeEmail_object, PasswordResetEmail_object, NewsletterEmail_object.
  split; [|split].
  - eexists; reflexivity.
  - destruct (is_string (merged bag "companyName" (VStr "Unipack"))) eqn:Hs.
    + now apply PasswordReset_view_ok.
    + apply PasswordReset_view_throws, Hs.
  - destruct (array_of_objects
                (merged bag "articles" Newsletter.sample_articles)) eqn:Ha.
    + now apply Newsletter_view_ok.
    + apply Newsletter_view_throws, Ha.
Qed.

(* ================================================================= *)
(** ** List expansion in the newsletter *)

Lemma map_from_nth {A : Type} (f : nat -> value -> outcome A) items :
  forall i bs,
    map_from f i items = Ok bs ->
    List.length bs = List.length items
    /\ forall j a,
         nth_error items j = Some a ->
         exists b, nth_error bs j = Some b /\ f (i + j) a = Ok b.
Proof.
  induction items as [|x items IH]; intros i bs; simpl.
  - intros H. injection H as <-. split; [reflexivity|].
    intros [|j] a H; discriminate H.
  - destruct (f i x) as [y|e] eqn:Hy; simpl; [|discriminate].
    destruct (map_from f (S i) items) as [ys|e] eqn:Hys; simpl; [|discriminate].
    intros H. injection H as <-.
    destruct (IH (S i) ys Hys) as (Hlen & Hnth).
    split; [simpl; now rewrite Hlen|].
    intros [|j] a; simpl.
    + intros H. injection H as <-. exists y. split; [reflexivity|].
      now rewrite Nat.add_0_r.
    + intros H. destruct (Hnth j a H) as (b & Hb & Hf).
      exists b. split; [exact Hb|]. now rewrite <- plus_n_Sm.
Qed.

Lemma map_from_back {A : Type} (f : nat -> value -> outcome A) items :
  forall i bs b,
    map_from f i items = Ok bs ->
    In b bs ->
    exists j a, nth_error items j = Some a /\ f (i + j) a = Ok b.
Proof.
  induction items as [|x items IH]; intros i bs b; simpl.
  - intros H. injection H as <-. intros [].
  - destruct (f i x) as [y|e] eqn:Hy; simpl; [|discriminate].
    destruct (map_from f (S i) items) as [ys|e] eqn:Hys; simpl; [|discriminate].
    intros H. injection H as <-. intros [<-|Hin].
    + exists 0, x. split; [reflexivity | now rewrite Nat.add_0_r].
    + destruct (IH (S i) ys b Hys Hin) as (j & a & Hj & Hf).
      exists (S j), a. split; [exact Hj | now rewrite <- plus_n_Sm].
Qed.

Lemma record_not_nullish a : article_record a = true -> nullish a = false.
Proof. destruct a; simpl; intros H; first [discriminate H | reflexivity]. Qed.

Lemma records_are_objects items :
  forallb article_record items = true ->
  forallb (fun a => negb (nullish a)) items = true.
Proof.
  induction items as [|a items IH]; simpl; [reflexivity|].
  intros H. apply andb_true_iff in H. destruct H as (Ha & Hr).
  now rewrite (record_not_nullish a Ha), (IH Hr).
Qed.

Lemma record_read_time a :
  article_record a = true ->
  truthy (field a "readTime") = negb (read_time_absent_or_empty a).
Proof.
  unfold article_record, read_time_absent_or_empty, field.
  destruct a; try discriminate.
  destruct (lookup "readTime" fields) as [[| | | |s| |]|]; try discriminate;
    intros _; [destruct s|]; reflexivity.
Qed.

(** What one article block holds, read with [find_all]. *)
Lemma block_facts articles i a b :
  article_record a = true ->
  Newsletter.article_block articles i a = Ok b ->
  find_all (is_elem CSection Newsletter.articleSection) b = [b]
  /\ find_all (is_elem CLink Newsletter.articleLink) b
     = [anchor CLink Newsletter.articleLink (field a "url")
          [Expr (field a "title")]]
  /\ find_all (is_elem CText Newsletter.articleExcerpt) b
     = [el CText Newsletter.articleExcerpt [Expr (field a "excerpt")]]
  /\ find_all (is_elem CButton Newsletter.articleButton) b
     = [anchor CButton Newsletter.articleButton (field a "url")
          [Lit "Read More"]]
  /\ find_all (is_elem CText Newsletter.readTime) b
     = (if read_time_absent_or_empty a then []
        else [el CText Newsletter.readTime [Expr (field a "readTime")]])
  /\ find_all is_hr b
     = (if Z.ltb (Z.of_nat i) (array_length articles - 1)
        then [el CHr Newsletter.articleHr []] else [])
  /\ last (children_of b) (Lit "")
     = (if Z.ltb (Z.of_nat i) (array_length articles - 1)
        then el CHr Newsletter.articleHr [] else Expr (VBool false)).
Proof.
  intros Hrec Hb. pose proof (record_read_time a Hrec) as Hrt.
  destruct a as [| | | | | |fields]; try discriminate Hrec.
  set (rt := field (VObj fields) "readTime") in *.
  set (vu := field (VObj fields) "url").
  set (vt := field (VObj fields) "title").
  set (ve := field (VObj fields) "excerpt").
  unfold Newsletter.article_block in Hb.
  change (get (VObj fields) "url") with (Ok vu) in Hb.
  change (get (VObj fields) "title") with (Ok vt) in Hb.
  change (get (VObj fields) "excerpt") with (Ok ve) in Hb.
  change (get (VObj fields) "readTime") with (Ok rt) in Hb.
  clearbody rt vu vt ve.
  cbn [bind] in Hb. injection Hb as <-.
  unfold and_then. rewrite Hrt.
  destruct (read_time_absent_or_empty (VObj fields));
    destruct (Z.ltb (Z.of_nat i) (array_length articles - 1));
    cbn [negb truthy]; repeat split; reflexivity.
Qed.

Lemma flat_map_singletons {A : Type} (f : A -> list A) (l : list A) :
  (forall x, In x l -> f x = [x]) -> flat_map f l = l.
Proof.
  induction l as [|x l IH]; simpl; intros H; [reflexivity|].
  rewrite (H x (or_introl eq_refl)), IH; [reflexivity|].
  intros y Hy. apply H. now right.
Qed.

Lemma newsletter_article_blocks t items c u bs tree :
  forallb article_record items = true ->
  map_from (Newsletter.article_block (VArr items)) 0 items = Ok bs ->
  Newsletter.view t (VArr items) c u = Ok tree ->
  article_blocks tree = bs.
Proof.
  intros Hrec Hm. unfold Newsletter.view, array_map. rewrite Hm.
  cbn [bind]. intros H. injection H as <-.
  unfold article_blocks. cbn. rewrite !app_nil_r.
  apply flat_map_singletons. intros b Hb.
  destruct (map_from_back _ _ _ _ _ Hm Hb) as (j & a & Hj & Hf).
  apply (block_facts (VArr items) (0 + j) a b); [|exact Hf].
  rewrite forallb_forall in Hrec. apply Hrec.
  eapply nth_error_In; exact Hj.
Qed.

(** C3: the newsletter built from a Data Bag whose [articles] is a list
    of N article records has exactly N article blocks, the i-th built
    from the i-th record (its link, excerpt and button); the i-th block
    ends in a divider exactly when another block follows, and holds a
    read-time text exactly when the record's [readTime] is present and
    not empty. *)
Theorem C3_newsletter_expands_articles_in_order :
  forall bag items,
    lookup "articles" bag = Some (VArr items) ->
    forallb article_record items = true ->
    exists tree,
      Newsletter.NewsletterEmail (VObj bag) = Ok tree
      /\ List.length (article_blocks tree) = List.length items
      /\ forall i a,
           nth_error items i = Some a ->
           exists b,
             nth_error (article_blocks tree) i = Some b
             /\ find_all (is_elem CLink Newsletter.articleLink) b
                = [anchor CLink Newsletter.articleLink (field a "url")
                     [Expr (field a "title")]]
             /\ find_all (is_elem CText Newsletter.articleExcerpt) b
                = [el CText Newsletter.articleExcerpt [Expr (field a "excerpt")]]
             /\ find_all (is_elem CButton Newsletter.articleButton) b
                = [anchor CButton Newsletter.articleButton (field a "url")
                     [Lit "Read More"]]
             /\ find_all (is_elem CText Newsletter.readTime) b
                = (if read_time_absent_or_empty a then []
                   else [el CText Newsletter.readTime
                           [Expr (field a "readTime")]])
             /\ find_all is_hr b
                = (if Nat.ltb (S i) (List.length items)
                   then [el CHr Newsletter.articleHr []] else [])
             /\ last (children_of b) (Lit "")
                = (if Nat.ltb (S i) (List.length items)
                   then el CHr Newsletter.articleHr []
                   else Expr (VBool false)).
Proof.
  intros bag items Hbag Hrec.
  rewrite NewsletterEmail_object.
  assert (Hart : merged bag "articles" Newsletter.sample_articles = VArr items)
    by (unfold merged; now rewrite Hbag).
  rewrite Hart.
  destruct (proj2 (map_from_article_blocks (VArr items) items 0)
              (records_are_objects items Hrec)) as (bs & Hm).
  destruct (proj2 (Newsletter_view_ok
                     (merged bag "title" (VStr "Weekly Newsletter"))
                     (VArr items)
                     (merged bag "companyName" (VStr "Unipack"))
                     (merged bag "unsubscribeUrl" (VStr "#")))
              (records_are_objects items Hrec)) as (tree & Htree).
  exists tree. split; [exact Htree|].
  rewrite (newsletter_article_blocks _ _ _ _ _ _ Hrec Hm Htree).
  destruct (map_from_nth _ _ _ _ Hm) as (Hlen & Hnth).
  split; [exact Hlen|].
  intros i a Hi. destruct (Hnth i a Hi) as (b & Hb & Hf).
  exists b. split; [exact Hb|].
  assert (Ha : article_record a = true).
  { rewrite forallb_forall in Hrec. apply Hrec. eapply nth_error_In; exact Hi. }
  destruct (block_facts (VArr items) (0 + i) a b Ha Hf)
    as (_ & Hl & He & Hbtn & Hr & Hh & Hlast).
  assert (Hlt : Z.ltb (Z.of_nat (0 + i)) (array_length (VArr items) - 1)
                = Nat.ltb (S i) (List.length items)).
  { simpl array_length. simpl Nat.add.
    destruct (Nat.ltb_spec (S i) (List.length items));
      [apply Z.ltb_lt | apply Z.ltb_ge]; lia. }
  rewrite Hlt in Hh, Hlast.
  repeat (split; [assumption|]). assumption.
Qed.

(** C3 (witness): two articles, the second without a read time. *)
Lemma C3_newsletter_expands_articles_in_order_witness :
  let items :=
    [ VObj [ ("title", VStr "A"); ("excerpt", VStr "a"); ("url", VStr "u1");
             ("readTime", VStr "5 min read") ];
      VObj [ ("title", VStr "B"); ("excerpt", VStr "b"); ("url", VStr "u2") ] ] in
  lookup "articles" [("articles", VArr items)] = Some (VArr items)
  /\ forallb article_record items = true
  /\ exists tree,
       Newsletter.NewsletterEmail (VObj [("articles", VArr items)]) = Ok tree
       /\ List.length (article_blocks tree) = 2.
Proof.
  intros items. split; [reflexivity | split; [reflexivity|]].
  destruct (C3_newsletter_expands_articles_in_order
              [("articles", VArr items)] items eq_refl eq_refl)
    as (tree & Htree & Hlen & _).
  exists tree. split; [exact Htree | exact Hlen].
Defined.

(* ================================================================= *)
(** ** renderEmailTemplate on a registered template *)

Lemma registered_names name :
  In name template_names -> exists t, templates_get name = Some (Own t).
Proof.
  intros [<-|[<-|[<-|[]]]]; eexists; reflexivity.
Qed.

Lemma renderEmailTemplate_registered foreign name t data format :
  templates_get name = Some (Own t) ->
  renderEmailTemplate foreign name data format =
  let fmt := default_to (VStr "html") format in
  match template t data with
  | Ok tree =>
      Ok {| html_field :=
              if wants fmt "html" then Some (render tree false) else None;
            text_field :=
              if wants fmt "text" then Some (render tree true) else None |}
  | Throw e =>
      if wants fmt "html" || wants fmt "text"
      then Throw e
      else Ok {| html_field := None; text_field := None |}
  end.
Proof.
  intros Hn. unfold renderEmailTemplate, render_member, wants. rewrite Hn.
  cbv zeta.
  destruct (template t data) as [tree|e];
    destruct (is_str (default_to (VStr "html") format) "html"
              || is_str (default_to (VStr "html") format) "both");
    destruct (is_str (default_to (VStr "html") format) "text"
              || is_str (default_to (VStr "html") format) "both");
    reflexivity.
Qed.

(** *** Buttons in the text output *)







Lemma segs_leaf n : is_leaf n = true ->
  segs n = [Some match n with Lit s => s | Expr v => text_of_value v | _ => "" end].
Proof. destruct n; simpl; intros H; try discriminate H; reflexivity. Qed.












(* ================================================================= *)
(** ** The clock and the copyright line *)

Ltac pick_literal :=
  (left; reflexivity) + (right; pick_literal)
  + (apply in_or_app; ((left; pick_literal) + (right; pick_literal))).

Lemma welcome_copyright data tree :
  Welcome.WelcomeEmail data = Ok tree -> has_copyright_literal tree.
Proof.
  unfold Welcome.WelcomeEmail, param.
  destruct data; simpl; try discriminate;
    intros H; injection H as <-;
    (eexists; split; [cbn; pick_literal | vm_compute; reflexivity]).
Qed.

Lemma password_reset_copyright data tree :
  PasswordReset.PasswordResetEmail data = Ok tree -> has_copyright_literal tree.
Proof.
  unfold PasswordReset.PasswordResetEmail, param.
  assert (Hview : forall u r c e,
             PasswordReset.view u r c e = Ok tree -> has_copyright_literal tree).
  { intros u r c e. unfold PasswordReset.view.
    destruct (toLowerCase "companyName" c); cbn [bind]; [|discriminate].
    intros H; injection H as <-.
    eexists; split; [cbn; pick_literal | vm_compute; reflexivity]. }
  destruct data; simpl; try discriminate; apply Hview.
Qed.

Lemma newsletter_copyright data tree :
  Newsletter.NewsletterEmail data = Ok tree -> has_copyright_literal tree.
Proof.
  unfold Newsletter.NewsletterEmail, param.
  assert (Hview : forall t a c u,
             Newsletter.view t a c u = Ok tree -> has_copyright_literal tree).
  { intros t a c u. unfold Newsletter.view.
    destruct (array_map "articles" a (Newsletter.article_block a)) as [bs|e];
      cbn [bind]; [|discriminate].
    intros H. injection H as <-.
    eexists; split; [cbn; pick_literal | vm_compute; reflexivity]. }
  destruct data; simpl; try discriminate; apply Hview.
Qed.

(** The clock is read by the health route. *)
Lemma health_reads_the_clock foreign :
  fetch foreign "2024-01-01T00:00:00.000Z"
    {| method := "GET"; pathname := "/health"; body := None |}
  <> fetch foreign "2025-01-01T00:00:00.000Z"
       {| method := "GET"; pathname := "/health"; body := None |}.
Proof. intros H. vm_compute in H. discriminate H. Qed.

(** Every tree a template builds carries the copyright year as the
    literal text "© 2024", not as a date. *)
Lemma templates_carry_the_copyright_literal t data tree :
  template t data = Ok tree -> has_copyright_literal tree.
Proof.
  destruct t; simpl.
  - apply welcome_copyright.
  - apply newsletter_copyright.
  - apply password_reset_copyright.
Qed.

(* ================================================================= *)
(** ** A data field that is not a map *)

Lemma template_non_object t d :
  (forall m, d <> VObj m) ->
  template t (or_else d (VObj [])) = template t (VObj []).
Proof.
  intros Hd. unfold or_else.
  destruct d as [| |b|n|s|items|m]; simpl truthy.
  - reflexivity.
  - reflexivity.
  - destruct b; [destruct t|]; reflexivity.
  - destruct (Z.eqb n 0); [|destruct t]; reflexivity.
  - destruct (String.eqb s ""); [|destruct t]; reflexivity.
  - destruct t; reflexivity.
  - now elim (Hd m).
Qed.

Lemma template_defaults t : exists tree, template t (VObj []) = Ok tree.
Proof. destruct t; eexists; reflexivity. Qed.

Lemma segment_registered name :
  In name template_names -> segment "/render/" ("/render/" ++ name) = name.
Proof.
  intros [<-|[<-|[<-|[]]]]; reflexivity.
Qed.

(** C6 (counterexample): a body whose [data] is a string, or a number,
    is not rejected: both servers answer 200 with [success: true]. *)
Lemma C6_string_data_is_rendered :
  let by_string := post "/render/welcome" (Some (VObj [("data", VStr "oops")])) in
  let by_number := post "/render/welcome" (Some (VObj [("data", VNum 7)])) in
  status (fetch no_foreign "" by_string) = 200
  /\ success_of (fetch no_foreign "" by_string) = Some (VBool true)
  /\ status (createServer no_foreign "" by_string) = 200
  /\ success_of (createServer no_foreign "" by_string) = Some (VBool true)
  /\ status (fetch no_foreign "" by_number) = 200
  /\ ~ (status (fetch no_foreign "" by_string) = 400
        /\ success_of (fetch no_foreign "" by_string) = Some (VBool false)).
Proof.
  cbv zeta. repeat (split; [vm_compute; reflexivity|]).
  intros (H & _). vm_compute in H. discriminate H.
Qed.

(** C6 (amended): for a registered template and a JSON object body
    whose [data] is anything but a map, both servers answer 200 with
    [success: true] and the rendering of the empty Data Bag, every
    parameter at its default; the 400 answer is that of a body that is
    not JSON. *)
Theorem C6_non_map_data_renders_the_defaults :
  forall foreign now name fields d,
    In name template_names ->
    lookup "data" fields = Some d ->
    (forall m, d <> VObj m) ->
    exists r,
      renderEmailTemplate foreign name (VObj [])
        (or_else (field (VObj fields) "format") (VStr "html")) = Ok r
      /\ fetch foreign now (post ("/render/" ++ name) (Some (VObj fields)))
         = bun_json 200 (success_body r)
      /\ createServer foreign now (post ("/render/" ++ name) (Some (VObj fields)))
         = node_json 200 (success_body r)
      /\ fetch foreign now (post ("/render/" ++ name) None)
         = bun_json 400 (failure_body "Invalid JSON body")
      /\ createServer foreign now (post ("/render/" ++ name) None)
         = node_json 400 (failure_body "Invalid JSON body").
Proof.
  intros foreign now name fields d Hname Hdata Hd.
  destruct (registered_names name Hname) as (t & Ht).
  destruct (template_defaults t) as (tree & Htree).
  assert (Hprefix : String.prefix "/render/" ("/render/" ++ name) = true)
    by (destruct Hname as [<-|[<-|[<-|[]]]]; reflexivity).
  set (fmt := or_else (field (VObj fields) "format") (VStr "html")).
  assert (Hparsed :
    render_parsed foreign name (VObj fields)
    = renderEmailTemplate foreign name (VObj []) fmt).
  { unfold render_parsed. simpl get. rewrite Hdata. cbn [bind].
    rewrite !(renderEmailTemplate_registered foreign name t _ _ Ht).
    now rewrite (template_non_object t d Hd). }
  assert (Hok : exists r, renderEmailTemplate foreign name (VObj []) fmt = Ok r).
  { rewrite (renderEmailTemplate_registered foreign name t _ _ Ht).
    cbv zeta. rewrite Htree. eexists; reflexivity. }
  destruct Hok as (r & Hr). exists r. split; [exact Hr|].
  rewrite !fetch_render_route, !createServer_render_route by exact Hprefix.
  rewrite (segment_registered name Hname), Ht, Hparsed, Hr.
  repeat split.
Qed.

(** C6 (witness): the welcome template with [data: "oops"]. *)
Lemma C6_non_map_data_renders_the_defaults_witness :
  In "welcome" template_names
  /\ lookup "data" [("data", VStr "oops")] = Some (VStr "oops")
  /\ (forall m, VStr "oops" <> VObj m)
  /\ exists r,
       renderEmailTemplate no_foreign "welcome" (VObj []) (VStr "html") = Ok r
       /\ fetch no_foreign ""
            (post "/render/welcome" (Some (VObj [("data", VStr "oops")])))
          = bun_json 200 (success_body r).
Proof.
  split; [simpl; auto|]. split; [reflexivity|]. split; [discriminate|].
  destruct (C6_non_map_data_renders_the_defaults no_foreign "" "welcome"
              [("data", VStr "oops")] (VStr "oops")
              (or_introl eq_refl) eq_refl
              (fun m (H : VStr "oops" = VObj m) =>
                 eq_ind (VStr "oops")
                   (fun v => match v with VStr _ => True | _ => False end)
                   I (VObj m) H))
    as (r & Hr & Hf & _).
  exists r. split; [exact Hr | exact Hf].
Defined.

(* ================================================================= *)
(** ** Every route of the two servers *)

Ltac split_routes :=
  repeat match goal with
    | |- context [if ?c then _ else _] => destruct c
    | |- context [match templates_get ?k with _ => _ end] =>
        destruct (templates_get k)
    | |- context [match ?x with Some _ => _ | None => _ end] =>
        is_var x; destruct x
    | |- context [bind ?m _] => destruct m; cbn [bind]
    | |- context [match render_parsed ?f ?n ?p with _ => _ end] =>
        destruct (render_parsed f n p)
    end.

(** X1: every response of the Bun server, on every route and for every
    outcome, carries the three CORS headers, and so does every response
    of the Node server to a request whose target parses as a URL; the
    500 answer of the Node server to a target that does not parse
    carries none of them. *)
Theorem X1_cors_headers_on_every_response :
  forall foreign now m path b h,
    In h corsHeaders ->
    In h (headers (fetch foreign now
                     {| method := m; pathname := path; body := b |}))
    /\ In h (headers (createServer_listener foreign now m (Some path) b))
    /\ ~ In h (headers (createServer_listener foreign now m None b)).
Proof.
  intros foreign now m p b h Hh.
  unfold createServer_listener.
  unfold fetch, fetch_routes, createServer, createServer_routes.
  cbv zeta. cbn [method pathname body].
  split; [|split].
  - split_routes; cbn [headers bun_json]; auto using in_cons, in_or_app.
  - split_routes; cbn [headers node_json node_reply]; auto using in_or_app.
  - cbn [headers]. intros [H|[]].
    destruct Hh as [<-|[<-|[<-|[]]]]; discriminate H.
Qed.

(** X1 (witness): the allow-origin header on a route that does not
    exist. *)
Lemma X1_cors_headers_on_every_response_witness :
  In ("Access-Control-Allow-Origin", "*") corsHeaders
  /\ In ("Access-Control-Allow-Origin", "*")
       (headers (fetch no_foreign "" (http_get "/nowhere")))
  /\ ~ In ("Access-Control-Allow-Origin", "*")
         (headers (createServer_listener no_foreign "" "GET" None None)).
Proof.
  split; [simpl; auto|].
  destruct (X1_cors_headers_on_every_response no_foreign "" "GET" "/nowhere"
              None ("Access-Control-Allow-Origin", "*") (or_introl eq_refl))
    as (Hb & _ & Hn).
  split; [exact Hb | exact Hn].
Defined.



(** X20: the clock reaches the response of the health route only:
    any other request gets the same response at any two instants. *)
Theorem X20_only_the_health_route_reads_the_clock :
  forall foreign now1 now2 req,
    String.eqb (pathname req) "/health" && String.eqb (method req) "GET" = false ->
    fetch foreign now1 req = fetch foreign now2 req
    /\ createServer foreign now1 req = createServer foreign now2 req.
Proof.
  intros foreign now1 now2 req H.
  unfold fetch, fetch_routes, createServer, createServer_routes.
  rewrite H. split; reflexivity.
Qed.

(** X20 (witness): the template listing at two instants. *)
Lemma X20_only_the_health_route_reads_the_clock_witness :
  String.eqb (pathname (http_get "/templates")) "/health"
    && String.eqb (method (http_get "/templates")) "GET" = false
  /\ fetch no_foreign "2024-01-01T00:00:00.000Z" (http_get "/templates")
     = fetch no_foreign "2025-06-30T12:00:00.000Z" (http_get "/templates").
Proof.
  split; [reflexivity|].
  apply (X20_only_the_health_route_reads_the_clock no_foreign
           "2024-01-01T00:00:00.000Z" "2025-06-30T12:00:00.000Z"
           (http_get "/templates") eq_refl).
Defined.

(* ================================================================= *)
(** ** Which requests reach the render route *)

Lemma own_template_in key l :
  own_template key l <> None <-> In key (map fst l).
Proof.
  induction l as [|[k t] l IH]; simpl.
  - split; [intros H; now elim H | intros []].
  - destruct (String.eqb_spec key k) as [->|Hne].
    + split; [intros _; now left | discriminate].
    + rewrite IH.
      split; [intros H; now right | intros [H|H]; [congruence | exact H]].
Qed.

Lemma templates_get_none name :
  templates_get name = None
  <-> ~ In name (template_names ++ object_prototype_members).
Proof.
  unfold templates_get, template_names.
  rewrite in_app_iff, <- own_template_in.
  destruct (own_template name templates) as [t|].
  - split; [discriminate|]. intros H. exfalso. apply H. left. discriminate.
  - destruct (existsb (String.eqb name) object_prototype_members) eqn:Hex.
    + split; [discriminate|]. intros H. exfalso. apply H. right.
      apply existsb_exists in Hex. destruct Hex as (k & Hk & He).
      apply String.eqb_eq in He. now subst.
    + split; [|reflexivity]. intros _ [Hin|Hin]; [now apply Hin|].
      assert (existsb (String.eqb name) object_prototype_members = true).
      { apply existsb_exists. exists name.
        split; [exact Hin | apply String.eqb_refl]. }
      congruence.
Qed.

(** X4: a POST under [/render/] is answered 404 exactly when the name
    taken from the path is neither one of the three template names nor
    the name of a member of [Object.prototype]; the body plays no
    part. *)
Theorem X4_render_is_404_exactly_for_unresolved_names :
  forall foreign now path b,
    String.prefix "/render/" path = true ->
    (status (fetch foreign now (post path b)) = 404
     <-> ~ In (segment "/render/" path)
             (template_names ++ object_prototype_members))
    /\ (status (createServer foreign now (post path b)) = 404
        <-> ~ In (segment "/render/" path)
                (template_names ++ object_prototype_members)).
Proof.
  intros foreign now path b Hp.
  rewrite fetch_render_route, createServer_render_route by exact Hp.
  rewrite <- templates_get_none.
  destruct (templates_get (segment "/render/" path)) as [m|].
  - destruct b as [parsed|]; [destruct (render_parsed foreign _ parsed)|];
      simpl; split; split; discriminate.
  - simpl; split; split; reflexivity.
Qed.

(** X4 (witness): a name in the wrong case. *)
Lemma X4_render_is_404_exactly_for_unresolved_names_witness :
  String.prefix "/render/" "/render/Welcome" = true
  /\ status (fetch no_foreign "" (post "/render/Welcome" (Some (VObj [])))) = 404.
Proof.
  split; [reflexivity|].
  apply (proj2 (proj1 (X4_render_is_404_exactly_for_unresolved_names
                         no_foreign "" "/render/Welcome" (Some (VObj []))
                         eq_refl))).
  intros H. vm_compute in H.
  repeat (destruct H as [H|H]; [discriminate H|]). exact H.
Defined.

(** X5: the answer to a POST under [/render/] is either status 200
    with the success envelope, or status 400, 404 or 500 with the error
    envelope [{ success: false, error }] and no output; nothing in
    between. *)
Theorem X5_render_answers_success_or_error_envelope :
  forall foreign now path b,
    String.prefix "/render/" path = true ->
    ((status (fetch foreign now (post path b)) = 200
      /\ is_success_envelope (fetch foreign now (post path b)))
     \/ (In (status (fetch foreign now (post path b))) [400; 404; 500]
         /\ is_error_envelope (fetch foreign now (post path b))))
    /\ ((status (createServer foreign now (post path b)) = 200
         /\ is_success_envelope (createServer foreign now (post path b)))
        \/ (In (status (createServer foreign now (post path b))) [400; 404]
            /\ is_error_envelope (createServer foreign now (post path b)))).
Proof.
  intros foreign now path b Hp.
  rewrite fetch_render_route, createServer_render_route by exact Hp.
  unfold is_success_envelope, is_error_envelope.
  destruct (templates_get (segment "/render/" path)) as [m|];
    [destruct b as [parsed|]; [destruct (render_parsed foreign _ parsed)|]|];
    simpl; split; eauto 8.
Qed.

(** X5 (witness): a body that is not JSON. *)
Lemma X5_render_answers_success_or_error_envelope_witness :
  String.prefix "/render/" "/render/welcome" = true
  /\ ((status (fetch no_foreign "" (post "/render/welcome" None)) = 200
       /\ is_success_envelope (fetch no_foreign "" (post "/render/welcome" None)))
      \/ (In (status (fetch no_foreign "" (post "/render/welcome" None)))
            [400; 404; 500]
          /\ is_error_envelope (fetch no_foreign "" (post "/render/welcome" None)))).
Proof.
  split; [reflexivity|].
  apply (proj1 (X5_render_answers_success_or_error_envelope
                  no_foreign "" "/render/welcome" None eq_refl)).
Defined.

(** X6: a request whose method is not OPTIONS, GET or POST is answered
    404 "Route not found" on every path by the Bun server, and by the
    Node server on every target that parses, PUT and DELETE included,
    which the CORS headers list as allowed; a target that does not
    parse is answered 500 by the Node server whatever the method. *)
Theorem X6_other_methods_find_no_route :
  forall foreign now m path b,
    m <> "OPTIONS" -> m <> "GET" -> m <> "POST" ->
    fetch foreign now {| method := m; pathname := path; body := b |}
      = bun_json 404 route_not_found_body
    /\ createServer_listener foreign now m (Some path) b
      = node_json 404 route_not_found_body
    /\ status (createServer_listener foreign now m None b) = 500.
Proof.
  intros foreign now m path b Ho Hg Hp.
  apply String.eqb_neq in Ho, Hg, Hp.
  unfold createServer_listener.
  unfold fetch, fetch_routes, createServer, createServer_routes; simpl.
  rewrite Ho, Hg, Hp, !andb_false_r. repeat split.
Qed.

(** X6 (witness): DELETE on a template's render path. *)
Lemma X6_other_methods_find_no_route_witness :
  "DELETE" <> "OPTIONS" /\ "DELETE" <> "GET" /\ "DELETE" <> "POST"
  /\ fetch no_foreign ""
       {| method := "DELETE"; pathname := "/render/welcome"; body := None |}
     = bun_json 404 route_not_found_body.
Proof.
  assert (H1 : "DELETE" <> "OPTIONS") by discriminate.
  assert (H2 : "DELETE" <> "GET") by discriminate.
  assert (H3 : "DELETE" <> "POST") by discriminate.
  split; [exact H1|]. split; [exact H2|]. split; [exact H3|].
  apply (X6_other_methods_find_no_route no_foreign "" "DELETE"
           "/render/welcome" None H1 H2 H3).
Defined.

(** X7: the render route answers POST only and the preview route GET
    only: a GET under [/render/] and a POST under [/preview/] are
    answered 404 "Route not found", whether or not the name is that of
    a template. *)
Theorem X7_render_needs_post_and_preview_needs_get :
  forall foreign now rest b,
    fetch foreign now
      {| method := "GET"; pathname := "/render/" ++ rest; body := b |}
      = bun_json 404 route_not_found_body
    /\ createServer foreign now
         {| method := "GET"; pathname := "/render/" ++ rest; body := b |}
       = node_json 404 route_not_found_body
    /\ fetch foreign now (post ("/preview/" ++ rest) b)
       = bun_json 404 route_not_found_body
    /\ createServer foreign now (post ("/preview/" ++ rest) b)
       = node_json 404 route_not_found_body.
Proof.
  intros foreign now rest b.
  unfold fetch, fetch_routes, createServer, createServer_routes, post; simpl.
  rewrite !andb_false_r. repeat split.
Qed.

(* ================================================================= *)
(** ** The format and the data of a render request *)

Lemma render_parsed_object foreign name fields :
  render_parsed foreign name (VObj fields)
  = renderEmailTemplate foreign name
      (or_else (field (VObj fields) "data") (VObj []))
      (or_else (field (VObj fields) "format") (VStr "html")).
Proof. reflexivity. Qed.

Lemma or_else_html_defined x :
  default_to (VStr "html") (or_else x (VStr "html")) = or_else x (VStr "html").
Proof.
  unfold or_else. destruct (truthy x) eqn:H; [|reflexivity].
  destruct x; try reflexivity; discriminate H.
Qed.

(** X8: a [format] that is missing or falsy (null, false, 0, the empty
    string) is taken as "html". *)
Theorem X8_missing_or_falsy_format_means_html :
  forall foreign now path fields,
    String.prefix "/render/" path = true ->
    truthy (field (VObj fields) "format") = false ->
    fetch foreign now (post path (Some (VObj fields)))
      = fetch foreign now
          (post path (Some (VObj (("format", VStr "html") :: fields))))
    /\ createServer foreign now (post path (Some (VObj fields)))
      = createServer foreign now
          (post path (Some (VObj (("format", VStr "html") :: fields)))).
Proof.
  intros foreign now path fields Hp Hf.
  rewrite !fetch_render_route, !createServer_render_route by exact Hp.
  rewrite !render_parsed_object.
  change (field (VObj (("format", VStr "html") :: fields)) "data")
    with (field (VObj fields) "data").
  change (field (VObj (("format", VStr "html") :: fields)) "format")
    with (VStr "html").
  assert (Hfmt : or_else (field (VObj fields) "format") (VStr "html")
                 = or_else (VStr "html") (VStr "html"))
    by (unfold or_else; now rewrite Hf).
  rewrite Hfmt. split; reflexivity.
Qed.

(** X8 (witness): [format: null]. *)
Lemma X8_missing_or_falsy_format_means_html_witness :
  String.prefix "/render/" "/render/welcome" = true
  /\ truthy (field (VObj [("format", VNull)]) "format") = false
  /\ fetch no_foreign "" (post "/render/welcome" (Some (VObj [("format", VNull)])))
     = fetch no_foreign ""
         (post "/render/welcome"
            (Some (VObj [("format", VStr "html"); ("format", VNull)]))).
Proof.
  split; [reflexivity|]. split; [reflexivity|].
  apply (X8_missing_or_falsy_format_means_html no_foreign ""
           "/render/welcome" [("format", VNull)] eq_refl eq_refl).
Defined.

(** X9: with a truthy [format] other than "html", "text" and "both",
    the answer is 200 [{ success: true }] with neither html nor text:
    the format is not rejected, and the template is not even built, so
    this holds whatever the data is. *)
Theorem X9_unknown_format_yields_success_without_output :
  forall foreign now path fields f,
    String.prefix "/render/" path = true ->
    templates_get (segment "/render/" path) <> None ->
    lookup "format" fields = Some f ->
    truthy f && negb (is_str f "html" || is_str f "text" || is_str f "both")
      = true ->
    fetch foreign now (post path (Some (VObj fields)))
      = bun_json 200 (VObj [("success", VBool true)])
    /\ createServer foreign now (post path (Some (VObj fields)))
      = node_json 200 (VObj [("success", VBool true)]).
Proof.
  intros foreign now path fields f Hp Hn Hl Hf.
  rewrite fetch_render_route, createServer_render_route by exact Hp.
  rewrite render_parsed_object.
  destruct (templates_get (segment "/render/" path)) as [m|] eqn:Hm;
    [|now elim Hn].
  apply andb_true_iff in Hf. destruct Hf as (Ht & Hs).
  apply negb_true_iff in Hs.
  apply orb_false_iff in Hs. destruct Hs as (Hs & Hb).
  apply orb_false_iff in Hs. destruct Hs as (Hh & Hx).
  assert (Hfmt : or_else (field (VObj fields) "format") (VStr "html") = f).
  { unfold field, or_else. now rewrite Hl, Ht. }
  rewrite Hfmt. unfold renderEmailTemplate. rewrite Hm.
  assert (Hd : default_to (VStr "html") f = f)
    by (destruct f; try reflexivity; discriminate Ht).
  rewrite Hd, Hh, Hx, Hb. split; reflexivity.
Qed.

(** X9 (witness): [format: "pdf"] with a companyName the build would
    throw on. *)
Lemma X9_unknown_format_yields_success_without_output_witness :
  let fields := [ ("format", VStr "pdf");
                  ("data", VObj [("companyName", VNum 42)]) ] in
  String.prefix "/render/" "/render/password-reset" = true
  /\ templates_get (segment "/render/" "/render/password-reset") <> None
  /\ lookup "format" fields = Some (VStr "pdf")
  /\ fetch no_foreign "" (post "/render/password-reset" (Some (VObj fields)))
     = bun_json 200 (VObj [("success", VBool true)]).
Proof.
  intros fields.
  assert (Hn : templates_get (segment "/render/" "/render/password-reset") <> None)
    by discriminate.
  split; [reflexivity|]. split; [exact Hn|]. split; [reflexivity|].
  apply (X9_unknown_format_yields_success_without_output no_foreign ""
           "/render/password-reset" fields (VStr "pdf")
           eq_refl Hn eq_refl eq_refl).
Defined.

(** X10: for a registered template, format "both" gives exactly the
    html of format "html" and the text of format "text", from the same
    Data Bag; where the build throws, all three throw the same
    error. *)
Theorem X10_both_is_the_html_and_the_text :
  forall foreign name data,
    In name template_names ->
    match renderEmailTemplate foreign name data (VStr "both") with
    | Ok r =>
        exists h t,
          r = {| html_field := Some h; text_field := Some t |}
          /\ renderEmailTemplate foreign name data (VStr "html")
             = Ok {| html_field := Some h; text_field := None |}
          /\ renderEmailTemplate foreign name data (VStr "text")
             = Ok {| html_field := None; text_field := Some t |}
    | Throw e =>
        renderEmailTemplate foreign name data (VStr "html") = Throw e
        /\ renderEmailTemplate foreign name data (VStr "text") = Throw e
    end.
Proof.
  intros foreign name data Hn. destruct (registered_names name Hn) as (t & Ht).
  rewrite !(renderEmailTemplate_registered foreign name t data _ Ht).
  cbv zeta. simpl default_to.
  change (wants (VStr "both") "html") with true.
  change (wants (VStr "both") "text") with true.
  change (wants (VStr "text") "html") with false.
  change (wants (VStr "text") "text") with true.
  change (wants (VStr "html") "html") with true.
  change (wants (VStr "html") "text") with false.
  destruct (template t data) as [tree|e]; simpl.
  - eexists _, _. repeat split.
  - split; reflexivity.
Qed.

(** X10 (witness): the newsletter with its defaults. *)
Lemma X10_both_is_the_html_and_the_text_witness :
  In "newsletter" template_names
  /\ match renderEmailTemplate no_foreign "newsletter" (VObj []) (VStr "both") with
     | Ok r =>
         exists h t,
           r = {| html_field := Some h; text_field := Some t |}
           /\ renderEmailTemplate no_foreign "newsletter" (VObj []) (VStr "html")
              = Ok {| html_field := Some h; text_field := None |}
           /\ renderEmailTemplate no_foreign "newsletter" (VObj []) (VStr "text")
              = Ok {| html_field := None; text_field := Some t |}
     | Throw e =>
         renderEmailTemplate no_foreign "newsletter" (VObj []) (VStr "html")
         = Throw e
         /\ renderEmailTemplate no_foreign "newsletter" (VObj []) (VStr "text")
            = Throw e
     end.
Proof.
  split; [simpl; auto|].
  apply (X10_both_is_the_html_and_the_text no_foreign "newsletter" (VObj [])
           (or_intror (or_introl eq_refl))).
Defined.

(** X11: when the build of a registered template throws on the given
    Data Bag and the format asks for html or text, the Bun server
    answers 500 with the message of the error, the Node server 400
    "Invalid JSON body". *)
Theorem X11_build_failure_is_500_on_bun_and_400_on_node :
  forall foreign now name t fields bag e,
    In name template_names ->
    templates_get name = Some (Own t) ->
    lookup "data" fields = Some (VObj bag) ->
    template t (VObj bag) = Throw e ->
    wants (or_else (field (VObj fields) "format") (VStr "html")) "html"
    || wants (or_else (field (VObj fields) "format") (VStr "html")) "text"
      = true ->
    fetch foreign now (post ("/render/" ++ name) (Some (VObj fields)))
      = bun_json 500 (failure_body (message e))
    /\ createServer foreign now (post ("/render/" ++ name) (Some (VObj fields)))
      = node_json 400 (failure_body "Invalid JSON body").
Proof.
  intros foreign now name t fields bag e Hn Ht Hd He Hf.
  assert (Hprefix : String.prefix "/render/" ("/render/" ++ name) = true)
    by (destruct Hn as [<-|[<-|[<-|[]]]]; reflexivity).
  rewrite fetch_render_route, createServer_render_route by exact Hprefix.
  rewrite (segment_registered name Hn), Ht, render_parsed_object.
  rewrite (renderEmailTemplate_registered foreign name t _ _ Ht). cbv zeta.
  assert (Hdat : or_else (field (VObj fields) "data") (VObj []) = VObj bag)
    by (unfold field; now rewrite Hd).
  rewrite Hdat, He, or_else_html_defined, Hf. split; reflexivity.
Qed.

(** X11 (witness): the newsletter with [articles: "x"]. *)
Lemma X11_build_failure_is_500_on_bun_and_400_on_node_witness :
  let fields := [("data", VObj [("articles", VStr "x")])] in
  In "newsletter" template_names
  /\ templates_get "newsletter" = Some (Own TNewsletter)
  /\ lookup "data" fields = Some (VObj [("articles", VStr "x")])
  /\ template TNewsletter (VObj [("articles", VStr "x")])
     = Throw (TypeError "articles.map is not a function")
  /\ fetch no_foreign "" (post "/render/newsletter" (Some (VObj fields)))
     = bun_json 500 (failure_body "articles.map is not a function")
  /\ createServer no_foreign "" (post "/render/newsletter" (Some (VObj fields)))
     = node_json 400 (failure_body "Invalid JSON body").
Proof.
  intros fields. split; [simpl; auto|]. repeat (split; [reflexivity|]).
  apply (X11_build_failure_is_500_on_bun_and_400_on_node no_foreign ""
           "newsletter" TNewsletter fields [("articles", VStr "x")]
           (TypeError "articles.map is not a function")
           (or_intror (or_introl eq_refl)) eq_refl eq_refl eq_refl eq_refl).
Defined.

(** X12: a body that is JSON but not an object.  For [null] the Bun
    server answers 500 and the Node server 400 "Invalid JSON body"; any
    other value (a string, a number, a boolean, an array) is handled as
    the empty object: the defaults are rendered as html. *)
Theorem X12_body_that_is_not_an_object :
  forall foreign now name parsed,
    In name template_names ->
    (forall m, parsed <> VObj m) ->
    if nullish parsed
    then status (fetch foreign now (post ("/render/" ++ name) (Some parsed)))
         = 500
         /\ createServer foreign now (post ("/render/" ++ name) (Some parsed))
            = node_json 400 (failure_body "Invalid JSON body")
    else fetch foreign now (post ("/render/" ++ name) (Some parsed))
         = fetch foreign now (post ("/render/" ++ name) (Some (VObj [])))
         /\ createServer foreign now (post ("/render/" ++ name) (Some parsed))
            = createServer foreign now
                (post ("/render/" ++ name) (Some (VObj []))).
Proof.
  intros foreign now name parsed Hn Hp.
  assert (Hprefix : String.prefix "/render/" ("/render/" ++ name) = true)
    by (destruct Hn as [<-|[<-|[<-|[]]]]; reflexivity).
  destruct (registered_names name Hn) as (t & Ht).
  rewrite !fetch_render_route, !createServer_render_route by exact Hprefix.
  rewrite (segment_registered name Hn), Ht.
  destruct parsed as [| | | | | |m]; simpl; try (split; reflexivity).
  now elim (Hp m).
Qed.

(** X12 (witness): the body [[1]]. *)
Lemma X12_body_that_is_not_an_object_witness :
  In "welcome" template_names
  /\ (forall m, VArr [VNum 1] <> VObj m)
  /\ fetch no_foreign "" (post "/render/welcome" (Some (VArr [VNum 1])))
     = fetch no_foreign "" (post "/render/welcome" (Some (VObj []))).
Proof.
  assert (H : forall m, VArr [VNum 1] <> VObj m) by (intros m; discriminate).
  split; [simpl; auto|]. split; [exact H|].
  apply (X12_body_that_is_not_an_object no_foreign "" "welcome"
           (VArr [VNum 1]) (or_introl eq_refl) H).
Defined.

(* ================================================================= *)
(** ** Preview and listing *)

(** X13: for each registered template, GET [/preview/name] answers 200
    with content type text/html, and its body is the html that POST
    [/render/name] returns for the data of [getSampleData]: every
    sample builds. *)
Theorem X13_preview_is_the_rendering_of_the_sample_data :
  forall foreign now name,
    In name template_names ->
    exists h,
      fetch foreign now (http_get ("/preview/" ++ name))
        = {| status := 200;
             headers := ("Content-Type", "text/html") :: corsHeaders;
             content := Raw h |}
      /\ createServer foreign now (http_get ("/preview/" ++ name))
        = node_reply 200 [("Content-Type", "text/html")] (Raw h)
      /\ fetch foreign now
           (post ("/render/" ++ name)
              (Some (VObj [("data", getSampleData name)])))
        = bun_json 200 (VObj [("success", VBool true); ("html", VStr h)]).
Proof.
  intros foreign now name [<-|[<-|[<-|[]]]];
    eexists; (split; [vm_compute; reflexivity|]);
    split; vm_compute; reflexivity.
Qed.

(** X13 (witness): the password-reset preview. *)
Lemma X13_preview_is_the_rendering_of_the_sample_data_witness :
  In "password-reset" template_names
  /\ exists h,
       fetch no_foreign "" (http_get "/preview/password-reset")
       = {| status := 200;
            headers := ("Content-Type", "text/html") :: corsHeaders;
            content := Raw h |}.
Proof.
  split; [simpl; auto|].
  destruct (X13_preview_is_the_rendering_of_the_sample_data no_foreign ""
              "password-reset" (or_intror (or_intror (or_introl eq_refl))))
    as (h & Hh & _).
  exists h. exact Hh.
Defined.

(** X14: a preview request for a name that [templates] does not
    resolve is answered 404 with the not-found message as plain text,
    not as the JSON envelope.  The Bun response has the CORS headers
    and the Content-Type text/plain that a [Response] built from a
    string gets; the Node response has the CORS headers and no
    Content-Type. *)
Theorem X14_preview_of_unresolved_name_is_plain_text_404 :
  forall foreign now rest,
    templates_get (segment "/preview/" ("/preview/" ++ rest)) = None ->
    fetch foreign now (http_get ("/preview/" ++ rest))
      = {| status := 404;
           headers := corsHeaders
                      ++ [("Content-Type", "text/plain;charset=utf-8")];
           content := Raw (not_found_message
                             (segment "/preview/" ("/preview/" ++ rest))) |}
    /\ createServer foreign now (http_get ("/preview/" ++ rest))
      = {| status := 404; headers := corsHeaders;
           content := Raw (not_found_message
                             (segment "/preview/" ("/preview/" ++ rest))) |}.
Proof.
  intros foreign now rest Hn.
  unfold fetch, fetch_routes, createServer, createServer_routes, http_get.
  cbn [method pathname body]. cbv zeta. rewrite Hn.
  change (String.eqb "GET" "OPTIONS") with false.
  change (String.eqb "GET" "POST") with false.
  change (String.eqb "GET" "GET") with true.
  change (String.eqb ("/preview/" ++ rest) "/health") with false.
  change (String.eqb ("/preview/" ++ rest) "/templates") with false.
  rewrite !andb_false_r.
  assert (Hp : String.prefix "/preview/" ("/preview/" ++ rest) = true)
    by (simpl; destruct rest; reflexivity).
  rewrite Hp. cbn. split; reflexivity.
Qed.

(** X14 (witness): [/preview/invoice]. *)
Lemma X14_preview_of_unresolved_name_is_plain_text_404_witness :
  templates_get (segment "/preview/" ("/preview/" ++ "invoice")) = None
  /\ fetch no_foreign "" (http_get ("/preview/" ++ "invoice"))
     = {| status := 404;
          headers := corsHeaders
                     ++ [("Content-Type", "text/plain;charset=utf-8")];
          content :=
            Raw "Template 'invoice' not found. Available templates: welcome, newsletter, password-reset" |}.
Proof.
  split; [reflexivity|].
  apply (X14_preview_of_unresolved_name_is_plain_text_404 no_foreign ""
           "invoice" eq_refl).
Defined.

(** X15: GET [/templates] lists the three template names in the order
    of the registry, each with a description of its own (never the
    fallback "Email template") and with an endpoint that, POSTed an
    empty JSON object, answers 200 with html. *)
Theorem X15_listed_endpoints_render :
  forall foreign now,
    content (fetch foreign now (http_get "/templates")) = Json template_listing
    /\ content (createServer foreign now (http_get "/templates"))
       = Json template_listing
    /\ match template_listing with
       | VObj [ _ ; (_, VArr entries) ] =>
           map (fun e => field e "name") entries = map VStr template_names
           /\ Forall
                (fun e =>
                   exists ep h,
                     field e "endpoint" = VStr ep
                     /\ field e "description" <> VStr "Email template"
                     /\ fetch foreign now (post ep (Some (VObj [])))
                        = bun_json 200
                            (VObj [("success", VBool true); ("html", VStr h)]))
                entries
       | _ => False
       end.
Proof.
  intros foreign now.
  split; [reflexivity|]. split; [reflexivity|].
  cbn -[fetch]. split; [reflexivity|].
  repeat constructor;
    (eexists _, _; split; [reflexivity|]; split; [discriminate|];
     vm_compute; reflexivity).
Qed.

(* ================================================================= *)
(** ** The name taken from the path *)

Lemma prefix_empty s : String.prefix "" s = true.
Proof. destruct s; reflexivity. Qed.

Lemma prefix_mismatch a c p s :
  Ascii.eqb c a = false -> String.prefix (String a p) (String c s) = false.
Proof.
  intros H. cbn [String.prefix].
  destruct (ascii_dec a c) as [->|]; [|reflexivity].
  rewrite Ascii.eqb_refl in H. discriminate H.
Qed.

Lemma split_go_step sep cur c s :
  String.prefix sep (String c s) = false ->
  split_go sep 0 cur (String c s) = split_go sep 0 (cur ++ String c "") s.
Proof. intros H. cbn [split_go]. now rewrite H. Qed.

Lemma split_go_no_slash name :
  no_slash name = true ->
  forall cur tail,
    split_go "/render/" 0 cur (name ++ tail)
    = split_go "/render/" 0 (cur ++ name) tail.
Proof.
  induction name as [|c name IH]; cbn [no_slash append]; intros Hs cur tail.
  - now rewrite sapp_nil_r.
  - apply andb_true_iff in Hs. destruct Hs as (Hc & Hs).
    apply negb_true_iff in Hc.
    rewrite split_go_step by (apply prefix_mismatch; exact Hc).
    rewrite (IH Hs), sapp_assoc. reflexivity.
Qed.

Lemma split_go_separator cur tail :
  split_go "/render/" 0 cur ("/render/" ++ tail)
  = cur :: split_go "/render/" 0 "" tail.
Proof.
  assert (Hp : String.prefix "/render/" ("/render/" ++ tail) = true)
    by (cbn; apply prefix_empty).
  change ("/render/" ++ tail) with (String "/" ("render/" ++ tail)) in *.
  cbn [split_go]. rewrite Hp. reflexivity.
Qed.

Lemma segment_between name :
  no_slash name = true ->
  segment "/render/" ("/render/" ++ name) = name
  /\ forall rest,
       segment "/render/" ("/render/" ++ name ++ "/render/" ++ rest) = name.
Proof.
  intros Hs. unfold segment, split. split; [|intros rest].
  - rewrite split_go_separator.
    rewrite <- (sapp_nil_r name) at 1.
    rewrite (split_go_no_slash name Hs). reflexivity.
  - rewrite split_go_separator, (split_go_no_slash name Hs),
      split_go_separator. reflexivity.
Qed.

(** X16: the template name is what stands between the first two
    occurrences of [/render/] in the path: for a name without a slash,
    whatever follows a second [/render/] is ignored, and the request is
    answered as the one for [/render/name]. *)
Theorem X16_path_after_a_second_render_is_ignored :
  forall foreign now name rest b,
    no_slash name = true ->
    segment "/render/" ("/render/" ++ name) = name
    /\ fetch foreign now (post ("/render/" ++ name ++ "/render/" ++ rest) b)
       = fetch foreign now (post ("/render/" ++ name) b)
    /\ createServer foreign now
         (post ("/render/" ++ name ++ "/render/" ++ rest) b)
       = createServer foreign now (post ("/render/" ++ name) b).
Proof.
  intros foreign now name rest b Hs.
  destruct (segment_between name Hs) as (H1 & H2).
  assert (Hp : forall x, String.prefix "/render/" ("/render/" ++ x) = true)
    by (intros x; simpl; apply prefix_empty).
  rewrite !fetch_render_route, !createServer_render_route by apply Hp.
  rewrite H1, H2. repeat split.
Qed.

(** X16 (witness): [/render/welcome/render/anything]. *)
Lemma X16_path_after_a_second_render_is_ignored_witness :
  no_slash "welcome" = true
  /\ fetch no_foreign ""
       (post ("/render/" ++ "welcome" ++ "/render/" ++ "anything")
          (Some (VObj [])))
     = fetch no_foreign "" (post ("/render/" ++ "welcome") (Some (VObj []))).
Proof.
  split; [reflexivity|].
  apply (X16_path_after_a_second_render_is_ignored no_foreign "" "welcome"
           "anything" (Some (VObj [])) eq_refl).
Defined.

(* ================================================================= *)
(** ** What the templates place where *)

(** X17: in every password-reset email that builds, the only element
    with a link target is the "Reset Password" button, its target is
    the merged [resetUrl], and the one text block styled [urlText]
    prints that same value. *)
Theorem X17_reset_url_is_the_button_target_and_the_printed_url :
  forall bag,
    is_string (merged bag "companyName" (VStr "Unipack")) = true ->
    exists tree,
      PasswordReset.PasswordResetEmail (VObj bag) = Ok tree
      /\ find_all has_href tree
         = [anchor CButton PasswordReset.button
              (merged bag "resetUrl" (VStr "#")) [Lit "Reset Password"]]
      /\ find_all (is_elem CText PasswordReset.urlText) tree
         = [el CText PasswordReset.urlText
              [Expr (merged bag "resetUrl" (VStr "#"))]].
Proof.
  intros bag Hc. rewrite PasswordResetEmail_object. unfold PasswordReset.view.
  destruct (merged bag "companyName" (VStr "Unipack")); try discriminate Hc.
  cbn [toLowerCase bind]. eexists. split; [reflexivity|].
  split; reflexivity.
Qed.

(** X17 (witness): a Data Bag with a reset URL alone. *)
Lemma X17_reset_url_is_the_button_target_and_the_printed_url_witness :
  let bag := [("resetUrl", VStr "https://x/y")] in
  is_string (merged bag "companyName" (VStr "Unipack")) = true
  /\ exists tree,
       PasswordReset.PasswordResetEmail (VObj bag) = Ok tree
       /\ find_all has_href tree
          = [anchor CButton PasswordReset.button (VStr "https://x/y")
               [Lit "Reset Password"]].
Proof.
  intros bag. split; [reflexivity|].
  destruct (X17_reset_url_is_the_button_target_and_the_printed_url bag eq_refl)
    as (tree & Htree & Hhref & _).
  exists tree. split; [exact Htree | exact Hhref].
Defined.

(** X18: what the newsletter does with [articles].  Missing (or
    undefined): the one sample article is shown, with no divider.
    An empty array: no article block at all, under the heading
    "Latest Articles", which stays.  Anything that is not an array,
    [null] included: the build throws a TypeError. *)
Theorem X18_articles_missing_empty_or_not_an_array :
  forall bag,
    match lookup "articles" bag with
    | None | Some VUndefined =>
        exists tree block,
          Newsletter.NewsletterEmail (VObj bag) = Ok tree
          /\ article_blocks tree = [block]
          /\ find_all (is_elem CLink Newsletter.articleLink) block
             = [anchor CLink Newsletter.articleLink (VStr "#")
                  [Expr (VStr "Sample Article Title")]]
          /\ find_all is_hr block = []
    | Some (VArr []) =>
        exists tree,
          Newsletter.NewsletterEmail (VObj bag) = Ok tree
          /\ article_blocks tree = []
          /\ find_all (is_elem CText Newsletter.sectionHeading) tree
             = [el CText Newsletter.sectionHeading [Lit "Latest Articles"]]
    | Some (VArr (_ :: _)) => True
    | Some _ =>
        exists msg,
          Newsletter.NewsletterEmail (VObj bag) = Throw (TypeError msg)
    end.
Proof.
  intros bag. rewrite NewsletterEmail_object.
  generalize (merged bag "title" (VStr "Weekly Newsletter"))
             (merged bag "companyName" (VStr "Unipack"))
             (merged bag "unsubscribeUrl" (VStr "#")).
  intros t c u. unfold merged.
  destruct (lookup "articles" bag) as [[| | | | |[|a items]|]|];
    try exact I; try (eexists; reflexivity).
  - eexists _, _. split; [reflexivity|]. repeat split.
  - eexists. split; [reflexivity|]. repeat split.
  - eexists _, _. split; [reflexivity|]. repeat split.
Qed.

(* ================================================================= *)
(** ** The simple test server *)

(** X19: the simple server answers the preflight and the health check
    exactly as the full Bun server does, serves its home page at GET
    [/], and answers every other request, so every render, preview and
    listing request, 404 "Route not found". *)
Theorem X19_simple_server_has_health_and_home_only :
  forall foreign now req,
    if String.eqb (method req) "OPTIONS"
       || (String.eqb (pathname req) "/health" && String.eqb (method req) "GET")
    then Simple.fetch now req = fetch foreign now req
    else if String.eqb (pathname req) "/" && String.eqb (method req) "GET"
    then Simple.fetch now req
         = {| status := 200;
              headers := ("Content-Type", "text/html") :: corsHeaders;
              content := Raw Simple.docs |}
    else Simple.fetch now req = bun_json 404 (failure_body "Route not found").
Proof.
  intros foreign now req. unfold Simple.fetch, fetch, fetch_routes.
  destruct (String.eqb (method req) "OPTIONS"); [reflexivity|].
  destruct (String.eqb (pathname req) "/health" && String.eqb (method req) "GET");
    [reflexivity|].
  simpl.
  destruct (String.eqb (pathname req) "/" && String.eqb (method req) "GET");
    reflexivity.
Qed.
